(** * The search tools of the RAG chatbot (backend/search_tools.py)

    A shallow embedding of [CourseSearchTool], [CourseOutlineTool] and
    [ToolManager], and the properties of their text output, their
    provenance tracking and their error paths.

    Python values are typed as the annotations and the data model give
    them: [Optional[str]] is [option string], [Optional[int]] is
    [option Z], a dict with known keys is a record of optional fields
    (a field is [None] when the key is absent).  Python's truth test on
    such a value ([if x:]) is written out: [None], the empty string, [0]
    and the empty list are false. *)

From Stdlib Require Import String Ascii List ZArith QArith DecimalString.
Import ListNotations.
Open Scope string_scope.

(** ** Python primitives *)

(** The line feed of the string literals ["\n"]. *)
Definition nl : string := String "010"%char EmptyString.

(** [str(n)] for an [int], as an f-string field prints it. *)
Definition str_of_int (z : Z) : string := NilZero.string_of_int (Z.to_int z).

(** [sep.join(parts)]. *)
Definition join (sep : string) (parts : list string) : string :=
  String.concat sep parts.

(** Truth value of a [str]. *)
Definition truthy_str (s : string) : bool :=
  match s with EmptyString => false | String _ _ => true end.

(** Truth value of an [Optional[str]]. *)
Definition truthy_opt_str (o : option string) : bool :=
  match o with None => false | Some s => truthy_str s end.

(** Truth value of an [Optional[int]]. *)
Definition truthy_opt_int (o : option Z) : bool :=
  match o with None => false | Some n => negb (n =? 0)%Z end.

(** [d.get(key, default)] on a record field. *)
Definition get_default {A : Type} (field : option A) (default : A) : A :=
  match field with Some v => v | None => default end.

(** [l.append(x)]. *)
Definition append {A : Type} (l : list A) (x : A) : list A := (l ++ [x])%list.

(** An f-string field holding an [Optional[int]]: [None] prints as the
    word None. *)
Definition str_of_opt_int (o : option Z) : string :=
  match o with Some n => str_of_int n | None => "None" end.

(** An f-string field holding an [Optional[str]]. *)
Definition str_of_opt_str (o : option string) : string :=
  match o with Some s => s | None => "None" end.

(** *** Insertion-ordered dict with string keys

    [dict_set] keeps the position of a key that is already there, as a
    Python dict does, and appends a new key at the end. *)

Section Dict.
Context {V : Type}.

Definition dict := list (string * V).

Fixpoint dict_get (k : string) (d : dict) : option V :=
  match d with
  | [] => None
  | (k', v) :: rest => if String.eqb k k' then Some v else dict_get k rest
  end.

Fixpoint dict_set (k : string) (v : V) (d : dict) : dict :=
  match d with
  | [] => [(k, v)]
  | (k', v') :: rest =>
      if String.eqb k k' then (k', v) :: rest
      else (k', v') :: dict_set k v rest
  end.

Definition dict_mem (k : string) (d : dict) : bool :=
  match dict_get k d with Some _ => true | None => false end.

Definition dict_values (d : dict) : list V := map snd d.

Definition dict_keys (d : dict) : list string := map fst d.
End Dict.
Arguments dict V : clear implicits.

(** *** Exceptions and effects

    A method runs on a state and returns either a value or a raised
    exception, together with the state it leaves: what was mutated
    before a [raise] stays mutated. *)

Inductive PyExn : Type :=
| ValueError (msg : string)
| TypeError (msg : string)
| KeyError (key : string).

Inductive Outcome (A : Type) : Type :=
| Return (a : A)
| Raise (e : PyExn).
Arguments Return {A} a.
Arguments Raise {A} e.

Definition Eff (S A : Type) : Type := S -> Outcome A * S.

Definition ret {S A : Type} (a : A) : Eff S A := fun s => (Return a, s).

Definition bind {S A B : Type} (m : Eff S A) (k : A -> Eff S B) : Eff S B :=
  fun s =>
    match m s with
    | (Return a, s') => k a s'
    | (Raise e, s') => (Raise e, s')
    end.

Definition raise {S A : Type} (e : PyExn) : Eff S A := fun s => (Raise e, s).

Declare Scope eff_scope.
Delimit Scope eff_scope with eff.
Notation "x <- m ;; k" := (bind m (fun x => k))
  (at level 61, m at next level, right associativity) : eff_scope.
Notation "' pat <- m ;; k" := (bind m (fun x => match x with pat => k end))
  (at level 61, pat pattern, m at next level, right associativity) : eff_scope.
Notation "m ;;; k" := (bind m (fun _ => k))
  (at level 61, right associativity) : eff_scope.

(** ** Data model *)

(** Metadata of a retrieved chunk: a dict with the keys [course_title]
    and [lesson_number]. *)
Record Metadata : Type := {
  meta_course_title : option string;
  meta_lesson_number : option Z
}.

(** Modelled from the spec: the type [SearchResults] of vector_store.py,
    which is not among the sources.  It carries parallel lists of
    documents, metadata and distances, and an optional error.  No tool
    reads the distances; they stand here as rationals. *)
Record SearchResults : Type := {
  documents : list string;
  metadata : list Metadata;
  distances : list Q;
  error : option string
}.

(** Modelled from the spec: [SearchResults.is_empty] of vector_store.py,
    which is not among the sources.  The result set is empty exactly when
    [documents] is the empty list, whatever [error] holds. *)
Definition is_empty (r : SearchResults) : bool :=
  match documents r with [] => true | _ :: _ => false end.

(** A provenance record, the dict [{"text": ..., "url": ...}]. *)
Record Source : Type := {
  text : string;
  url : option string
}.

(** A lesson of a course metadata entry. *)
Record LessonMeta : Type := {
  lesson_number : option Z;
  lesson_title : option string;
  lesson_link : option string
}.

(** A course metadata entry, as [get_all_courses_metadata] lists them. *)
Record CourseMeta : Type := {
  title : option string;
  instructor : option string;
  course_link : option string;
  lessons : option (list LessonMeta)
}.

(** Truth value of a course metadata dict: a dict is true when it has
    a key. *)
Definition truthy_course_meta (m : CourseMeta) : bool :=
  match title m, instructor m, course_link m, lessons m with
  | None, None, None, None => false
  | _, _, _, _ => true
  end.

(** ** The vector store

    vector_store.py is an external collaborator, not among the sources
    (the tests replace it by a mock).  The four methods the tools call are
    taken as parameters, the fields of [VectorStore]; every call is
    recorded, as the mock of the tests records them. *)

Record VectorStore : Type := {
  search : string -> option string -> option Z -> SearchResults;
  get_lesson_link : string -> Z -> option string;
  _resolve_course_name : string -> option string;
  get_all_courses_metadata : list CourseMeta
}.

Inductive StoreCall : Type :=
| call_search (query : string) (course_name : option string)
    (lesson_number : option Z)
| call_get_lesson_link (course_title : string) (lesson_number : Z)
| call_resolve_course_name (course_name : string)
| call_get_all_courses_metadata.

(** The state a method of an object runs on: the object and the calls
    made to the store so far. *)
Record Ctx (Self : Type) : Type := {
  obj : Self;
  calls : list StoreCall
}.
Arguments obj {Self} c.
Arguments calls {Self} c.
Arguments Build_Ctx {Self} obj calls.

Definition record_call {Self : Type} (c : StoreCall) : Eff (Ctx Self) unit :=
  fun s => (Return tt, {| obj := obj s; calls := calls s ++ [c] |}).

Definition get_self {Self : Type} : Eff (Ctx Self) Self :=
  fun s => (Return (obj s), s).

Definition set_self {Self : Type} (x : Self) : Eff (Ctx Self) unit :=
  fun s => (Return tt, {| obj := x; calls := calls s |}).

Open Scope eff_scope.

Section StoreCalls.
Context {Self : Type} (st : VectorStore).

Definition store_search (query : string) (course_name : option string)
    (lesson_number : option Z) : Eff (Ctx Self) SearchResults :=
  record_call (call_search query course_name lesson_number) ;;;
  ret (search st query course_name lesson_number).

Definition store_get_lesson_link (course_title : string) (lesson_num : Z)
    : Eff (Ctx Self) (option string) :=
  record_call (call_get_lesson_link course_title lesson_num) ;;;
  ret (get_lesson_link st course_title lesson_num).

Definition store_resolve_course_name (course_name : string)
    : Eff (Ctx Self) (option string) :=
  record_call (call_resolve_course_name course_name) ;;;
  ret (_resolve_course_name st course_name).

Definition store_get_all_courses_metadata
    : Eff (Ctx Self) (list CourseMeta) :=
  record_call call_get_all_courses_metadata ;;;
  ret (get_all_courses_metadata st).
End StoreCalls.

(** ** Tool definitions *)

Record Property : Type := {
  prop_name : string;
  prop_type : string;
  prop_description : string
}.

Record InputSchema : Type := {
  schema_type : string;
  properties : list Property;
  required : list string
}.

(** The dict a tool describes itself with; [name] is what the registry
    reads with [tool_def.get("name")]. *)
Record ToolDefinition : Type := {
  name : option string;
  description : option string;
  input_schema : option InputSchema
}.

(** The keyword arguments of a tool call, over the parameter names the
    two schemas declare; a field is [None] when the keyword is not
    passed. *)
Record Kwargs : Type := {
  kw_query : option string;
  kw_course_name : option string;
  kw_lesson_number : option Z
}.

(** ** CourseSearchTool *)

Module CourseSearchTool.

Record t : Type := {
  store : VectorStore;
  last_sources : list Source
}.

Definition __init__ (vector_store : VectorStore) : t :=
  {| store := vector_store; last_sources := [] |}.

Definition get_tool_definition (self : t) : ToolDefinition :=
  {| name := Some "search_course_content";
     description := Some
       "Search course materials with smart course name matching and lesson filtering";
     input_schema := Some
       {| schema_type := "object";
          properties :=
            [ {| prop_name := "query"; prop_type := "string";
                 prop_description :=
                   "What to search for in the course content" |};
              {| prop_name := "course_name"; prop_type := "string";
                 prop_description :=
                   "Course title (partial matches work, e.g. 'MCP', 'Introduction')" |};
              {| prop_name := "lesson_number"; prop_type := "integer";
                 prop_description :=
                   "Specific lesson number to search within (e.g. 1, 2, 3)" |} ];
          required := ["query"] |} |}.

(** The [for doc, meta in zip(...)] loop of [_format_results], on the
    pairs still to visit and the two lists built so far. *)
Fixpoint format_loop (st : VectorStore) (pairs : list (string * Metadata))
    (formatted : list string) (sources : list Source)
    : Eff (Ctx t) (list string * list Source) :=
  match pairs with
  | [] => ret (formatted, sources)
  | (doc, meta) :: rest =>
      let course_title := get_default (meta_course_title meta) "unknown" in
      let lesson_num := meta_lesson_number meta in
      let header := "[" ++ course_title in
      let header :=
        match lesson_num with
        | Some n => header ++ " - Lesson " ++ str_of_int n
        | None => header
        end in
      let header := header ++ "]" in
      let source_text := course_title in
      let source_text :=
        match lesson_num with
        | Some n => source_text ++ " - Lesson " ++ str_of_int n
        | None => source_text
        end in
      lesson_url <-
        match lesson_num with
        | Some n => store_get_lesson_link st course_title n
        | None => ret None
        end ;;
      let source_data := {| text := source_text; url := lesson_url |} in
      format_loop st rest
        (append formatted (header ++ nl ++ doc)) (append sources source_data)
  end.

Definition _format_results (results : SearchResults) : Eff (Ctx t) string :=
  self <- get_self ;;
  ' (formatted, sources) <-
    format_loop (store self)
      (combine (documents results) (metadata results)) [] [] ;;
  set_self {| store := store self; last_sources := sources |} ;;;
  ret (join (nl ++ nl) formatted).

Definition execute (query : string) (course_name : option string)
    (lesson_number : option Z) : Eff (Ctx t) string :=
  self <- get_self ;;
  results <- store_search (store self) query course_name lesson_number ;;
  let after_error_check : Eff (Ctx t) string :=
    if is_empty results then
      let filter_info := EmptyString in
      let filter_info :=
        if truthy_opt_str course_name
        then filter_info ++ " in course '" ++ str_of_opt_str course_name ++ "'"
        else filter_info in
      let filter_info :=
        if truthy_opt_int lesson_number
        then filter_info ++ " in lesson " ++ str_of_opt_int lesson_number
        else filter_info in
      ret ("No relevant content found" ++ filter_info ++ ".")
    else _format_results results in
  match error results with
  | Some e => if truthy_str e then ret e else after_error_check
  | None => after_error_check
  end.

(** [execute] on keyword arguments: [query] is required, the two filters
    default to [None]. *)
Definition call (kwargs : Kwargs) : Eff (Ctx t) string :=
  match kw_query kwargs with
  | Some query =>
      execute query (kw_course_name kwargs) (kw_lesson_number kwargs)
  | None =>
      raise (TypeError
        "execute() missing 1 required positional argument: 'query'")
  end.

End CourseSearchTool.

(** ** CourseOutlineTool *)

Module CourseOutlineTool.

Record t : Type := {
  store : VectorStore
}.

Definition __init__ (vector_store : VectorStore) : t :=
  {| store := vector_store |}.

Definition get_tool_definition (self : t) : ToolDefinition :=
  {| name := Some "get_course_outline";
     description := Some
       "Get the complete outline/structure of a course including course title, course link, and all lessons";
     input_schema := Some
       {| schema_type := "object";
          properties :=
            [ {| prop_name := "course_name"; prop_type := "string";
                 prop_description :=
                   "Course title (partial matches work, e.g. 'MCP', 'Introduction', 'Building')" |} ];
          required := ["course_name"] |} |}.

(** The [for lesson in lessons] loop of [_format_course_outline]. *)
Fixpoint lessons_loop (lessons : list LessonMeta) (outline_parts : list string)
    : list string :=
  match lessons with
  | [] => outline_parts
  | lesson :: rest =>
      let lesson_number := lesson_number lesson in
      let lesson_title := get_default (lesson_title lesson) "Untitled Lesson" in
      let lesson_link := lesson_link lesson in
      let lesson_entry :=
        "Lesson " ++ str_of_opt_int lesson_number ++ ": " ++ lesson_title in
      let lesson_entry :=
        if truthy_opt_str lesson_link
        then lesson_entry ++ " - " ++ str_of_opt_str lesson_link
        else lesson_entry in
      lessons_loop rest (append outline_parts lesson_entry)
  end.

Definition _format_course_outline (course_meta : CourseMeta) : string :=
  let outline_parts : list string := [] in
  let course_title := get_default (title course_meta) "Unknown Course" in
  let outline_parts := append outline_parts ("**Course:** " ++ course_title) in
  let course_link := course_link course_meta in
  let outline_parts :=
    if truthy_opt_str course_link
    then append outline_parts ("**Course Link:** " ++ str_of_opt_str course_link)
    else outline_parts in
  let instructor := instructor course_meta in
  let outline_parts :=
    if truthy_opt_str instructor
    then append outline_parts ("**Instructor:** " ++ str_of_opt_str instructor)
    else outline_parts in
  let lessons := get_default (lessons course_meta) [] in
  let outline_parts :=
    match lessons with
    | _ :: _ =>
        let outline_parts :=
          append outline_parts
            (nl ++ "**Course Outline (" ++
             str_of_int (Z.of_nat (List.length lessons)) ++ " lessons):**") in
        lessons_loop lessons outline_parts
    | [] =>
        append outline_parts (nl ++ "**Course Outline:** No lessons available")
    end in
  join nl outline_parts.

(** [course_meta.get('title') == resolved_course_title]. *)
Definition title_is (course_meta : CourseMeta) (resolved : string) : bool :=
  match title course_meta with
  | Some t => String.eqb t resolved
  | None => false
  end.

(** The [for course_meta in all_courses] loop of [execute], which
    breaks at the first entry with the resolved title. *)
Fixpoint find_matching_course (all_courses : list CourseMeta)
    (resolved : string) : option CourseMeta :=
  match all_courses with
  | [] => None
  | course_meta :: rest =>
      if title_is course_meta resolved then Some course_meta
      else find_matching_course rest resolved
  end.

Definition execute (course_name : string) : Eff (Ctx t) string :=
  self <- get_self ;;
  resolved_course_title <- store_resolve_course_name (store self) course_name ;;
  let not_resolved : Eff (Ctx t) string :=
    ret ("No course found matching '" ++ course_name ++ "'") in
  match resolved_course_title with
  | None => not_resolved
  | Some resolved =>
      if negb (truthy_str resolved) then not_resolved
      else
        all_courses <- store_get_all_courses_metadata (store self) ;;
        let matching_course := find_matching_course all_courses resolved in
        let not_found : Eff (Ctx t) string :=
          ret ("Course metadata not found for '" ++ resolved ++ "'") in
        match matching_course with
        | None => not_found
        | Some course_meta =>
            if negb (truthy_course_meta course_meta) then not_found
            else ret (_format_course_outline course_meta)
        end
  end.

(** [execute] on keyword arguments: [course_name] is required and is the
    only parameter. *)
Definition call (kwargs : Kwargs) : Eff (Ctx t) string :=
  match kw_course_name kwargs, kw_query kwargs, kw_lesson_number kwargs with
  | Some course_name, None, None => execute course_name
  | None, None, None =>
      raise (TypeError
        "execute() missing 1 required positional argument: 'course_name'")
  | _, Some _, _ =>
      raise (TypeError "execute() got an unexpected keyword argument 'query'")
  | _, None, Some _ =>
      raise (TypeError
        "execute() got an unexpected keyword argument 'lesson_number'")
  end.

End CourseOutlineTool.

(** ** The Tool interface and the registry *)

(** Any other implementation of the [Tool] interface (the tests register
    a mock): its definition, what [execute] returns or raises and does to
    [last_sources], and the [last_sources] attribute when the object has
    one. *)
Module OtherTool.

Record t : Type := {
  definition : ToolDefinition;
  run : Kwargs -> option (list Source) ->
        Outcome string * option (list Source);
  last_sources : option (list Source)
}.

Definition get_tool_definition (self : t) : ToolDefinition :=
  definition self.

Definition execute (kwargs : Kwargs) : Eff (Ctx t) string :=
  fun s =>
    let self := obj s in
    let '(r, attr) := run self kwargs (last_sources self) in
    (r, {| obj := {| definition := definition self; run := run self;
                     last_sources := attr |};
           calls := calls s |}).

End OtherTool.

(** The abstract base class [Tool]: a tool describes itself and can be
    executed on keyword arguments, where a missing or an unexpected
    keyword is a [TypeError]. *)
Class ToolABC (Self : Type) : Type := {
  get_tool_definition : Self -> ToolDefinition;
  execute : Kwargs -> Eff (Ctx Self) string
}.

#[export] Instance CourseSearchTool_Tool : ToolABC CourseSearchTool.t :=
  {| get_tool_definition := CourseSearchTool.get_tool_definition;
     execute := CourseSearchTool.call |}.

#[export] Instance CourseOutlineTool_Tool : ToolABC CourseOutlineTool.t :=
  {| get_tool_definition := CourseOutlineTool.get_tool_definition;
     execute := CourseOutlineTool.call |}.

#[export] Instance OtherTool_Tool : ToolABC OtherTool.t :=
  {| get_tool_definition := OtherTool.get_tool_definition;
     execute := OtherTool.execute |}.

(** The objects a registry holds.  A definition is fixed per tool
    instance, so an object sits under one name at most and the registry
    can hold the state of each tool under its name. *)
Inductive Tool : Type :=
| SearchTool (t : CourseSearchTool.t)
| OutlineTool (t : CourseOutlineTool.t)
| Other (t : OtherTool.t).

(** Runs a method of a tool object inside the state of its owner. *)
Definition run_on {Self A : Type} (x : Self) (wrap : Self -> Tool)
    (m : Eff (Ctx Self) A) : Eff (Ctx Tool) A :=
  fun s =>
    let '(r, s') := m {| obj := x; calls := calls s |} in
    (r, {| obj := wrap (obj s'); calls := calls s' |}).

(** [tool.get_tool_definition()]. *)
Definition tool_get_tool_definition (tool : Tool) : ToolDefinition :=
  match tool with
  | SearchTool t => get_tool_definition t
  | OutlineTool t => get_tool_definition t
  | Other t => get_tool_definition t
  end.

(** [tool.execute] on keyword arguments. *)
Definition tool_execute (kwargs : Kwargs) : Eff (Ctx Tool) string :=
  fun s =>
    match obj s with
    | SearchTool t => run_on t SearchTool (execute kwargs) s
    | OutlineTool t => run_on t OutlineTool (execute kwargs) s
    | Other t => run_on t Other (execute kwargs) s
    end.

(** [tool.last_sources] when [hasattr(tool, 'last_sources')], and [None]
    when the object has no such attribute. *)
Definition tool_last_sources (tool : Tool) : option (list Source) :=
  match tool with
  | SearchTool t => Some (CourseSearchTool.last_sources t)
  | OutlineTool _ => None
  | Other t => OtherTool.last_sources t
  end.

(** [tool.last_sources = sources]. *)
Definition tool_set_last_sources (tool : Tool) (sources : list Source) : Tool :=
  match tool with
  | SearchTool t =>
      SearchTool {| CourseSearchTool.store := CourseSearchTool.store t;
                    CourseSearchTool.last_sources := sources |}
  | OutlineTool t => OutlineTool t
  | Other t =>
      Other {| OtherTool.definition := OtherTool.definition t;
               OtherTool.run := OtherTool.run t;
               OtherTool.last_sources := Some sources |}
  end.

Module ToolManager.

Record t : Type := {
  tools : dict Tool
}.

Definition __init__ : t := {| tools := [] |}.

Definition register_tool (tool : Tool) : Eff (Ctx t) unit :=
  self <- get_self ;;
  let tool_def := tool_get_tool_definition tool in
  let tool_name := name tool_def in
  let no_name : Eff (Ctx t) unit :=
    raise (ValueError "Tool must have a 'name' in its definition") in
  match tool_name with
  | None => no_name
  | Some n =>
      if negb (truthy_str n) then no_name
      else set_self {| tools := dict_set n tool (tools self) |}
  end.

Definition get_tool_definitions : Eff (Ctx t) (list ToolDefinition) :=
  self <- get_self ;;
  ret (map tool_get_tool_definition (dict_values (tools self))).

Definition execute_tool (tool_name : string) (kwargs : Kwargs)
    : Eff (Ctx t) string :=
  self <- get_self ;;
  if negb (dict_mem tool_name (tools self)) then
    ret ("Tool '" ++ tool_name ++ "' not found")
  else
    match dict_get tool_name (tools self) with
    | None => raise (KeyError tool_name)
    | Some tool =>
        fun s =>
          let '(r, s') :=
            tool_execute kwargs {| obj := tool; calls := calls s |} in
          (r, {| obj := {| tools := dict_set tool_name (obj s') (tools self) |};
                 calls := calls s' |})
    end.

(** The [for tool in self.tools.values()] loop of [get_last_sources]. *)
Fixpoint first_sources (values : list Tool) : list Source :=
  match values with
  | [] => []
  | tool :: rest =>
      match tool_last_sources tool with
      | Some (src :: more) => src :: more
      | Some [] => first_sources rest
      | None => first_sources rest
      end
  end.

Definition get_last_sources : Eff (Ctx t) (list Source) :=
  self <- get_self ;;
  ret (first_sources (dict_values (tools self))).

(** One turn of the loop of [reset_sources]. *)
Definition reset_tool (tool : Tool) : Tool :=
  match tool_last_sources tool with
  | Some _ => tool_set_last_sources tool []
  | None => tool
  end.

Definition reset_sources : Eff (Ctx t) unit :=
  self <- get_self ;;
  set_self
    {| tools := map (fun kv => (fst kv, reset_tool (snd kv))) (tools self) |}.

End ToolManager.

(** ** Test doubles

    The mock store and the sample data of tests/conftest.py. *)

Definition mock_store (results : SearchResults) (resolved : option string)
    (courses : list CourseMeta) (link : option string) : VectorStore :=
  {| search := fun _ _ _ => results;
     get_lesson_link := fun _ _ => link;
     _resolve_course_name := fun _ => resolved;
     get_all_courses_metadata := courses |}.

Definition chroma_title : string := "Advanced Retrieval for AI with Chroma".

Definition sample_search_results : SearchResults :=
  {| documents :=
       [ "Vector databases store embeddings for semantic search";
         "ChromaDB is a popular vector database solution" ];
     metadata :=
       [ {| meta_course_title := Some chroma_title; meta_lesson_number := Some 1%Z |};
         {| meta_course_title := Some chroma_title; meta_lesson_number := Some 2%Z |} ];
     distances := [(1 # 10)%Q; (2 # 10)%Q];
     error := None |}.

Definition empty_search_results : SearchResults :=
  {| documents := []; metadata := []; distances := []; error := None |}.

(** [SearchResults.empty(msg)]. *)
Definition error_search_results (msg : string) : SearchResults :=
  {| documents := []; metadata := []; distances := []; error := Some msg |}.

Definition sample_courses : list CourseMeta :=
  [ {| title := Some chroma_title;
       instructor := Some "John Doe";
       course_link := Some "https://example.com/course";
       lessons := Some
         [ {| lesson_number := Some 1%Z;
              lesson_title := Some "Introduction to Vectors";
              lesson_link := Some "https://example.com/lesson1" |};
           {| lesson_number := Some 2%Z;
              lesson_title := Some "Embedding Basics";
              lesson_link := Some "https://example.com/lesson2" |} ] |} ].

Definition mock_vector_store : VectorStore :=
  mock_store sample_search_results (Some chroma_title) sample_courses
    (Some "https://example.com/lesson1").

(** A fresh method state: the object and no call made yet. *)
Definition fresh {Self : Type} (x : Self) : Ctx Self :=
  {| obj := x; calls := [] |}.

(** ** What the specification says of the search tool

    These definitions follow the words of the specification; the
    theorems below compare them with the code. *)

(** The label of an entry: the course title (the word unknown when the
    metadata has none) and the lesson segment when the metadata carries a
    lesson number. *)
Definition spec_label (meta : Metadata) : string :=
  get_default (meta_course_title meta) "unknown" ++
  match meta_lesson_number meta with
  | Some n => " - Lesson " ++ str_of_int n
  | None => EmptyString
  end.

(** An entry of the output: the bracketed label, a newline, the document. *)
Definition spec_entry (p : string * Metadata) : string :=
  "[" ++ spec_label (snd p) ++ "]" ++ nl ++ fst p.

(** The output for a non-empty result: the entries in order, a blank line
    between them. *)
Definition spec_search_output (pairs : list (string * Metadata)) : string :=
  join (nl ++ nl) (map spec_entry pairs).

(** The provenance record of an entry. *)
Definition spec_source (st : VectorStore) (p : string * Metadata) : Source :=
  {| text := spec_label (snd p);
     url :=
       match meta_lesson_number (snd p) with
       | Some n =>
           get_lesson_link st
             (get_default (meta_course_title (snd p)) "unknown") n
       | None => None
       end |}.

(** The lesson-link queries one invocation may make: one per entry with a
    lesson number, none for the others. *)
Definition spec_link_calls (pairs : list (string * Metadata)) : list StoreCall :=
  flat_map
    (fun p =>
       match meta_lesson_number (snd p) with
       | Some n =>
           [call_get_lesson_link
              (get_default (meta_course_title (snd p)) "unknown") n]
       | None => []
       end)
    pairs.

(** The message for an empty result as the specification words it: a
    filter is named whenever the argument was supplied. *)
Definition claimed_empty_message (course_name : option string)
    (lesson_number : option Z) : string :=
  "No relevant content found" ++
  match course_name with
  | Some c => " in course '" ++ c ++ "'"
  | None => EmptyString
  end ++
  match lesson_number with
  | Some n => " in lesson " ++ str_of_int n
  | None => EmptyString
  end.

(** The message for an empty result, amended: an empty course name is
    not named, and the sentence ends with a full stop. *)
Definition spec_empty_message (course_name : option string)
    (lesson_number : option Z) : string :=
  "No relevant content found" ++
  match course_name with
  | Some c => if truthy_str c then " in course '" ++ c ++ "'" else EmptyString
  | None => EmptyString
  end ++
  match lesson_number with
  | Some n => " in lesson " ++ str_of_int n
  | None => EmptyString
  end ++ ".".

(** ** What the specification says of the outline tool *)

(** A lesson line as the specification words it: the link follows
    whenever the lesson has one. *)
Definition claimed_lesson_line (l : LessonMeta) : string :=
  "Lesson " ++ str_of_opt_int (lesson_number l) ++ ": " ++
  get_default (lesson_title l) "Untitled Lesson" ++
  match lesson_link l with
  | Some u => " - " ++ u
  | None => EmptyString
  end.

(** A lesson line, amended: an empty link is not printed. *)
Definition spec_lesson_line (l : LessonMeta) : string :=
  "Lesson " ++ str_of_opt_int (lesson_number l) ++ ": " ++
  get_default (lesson_title l) "Untitled Lesson" ++
  match lesson_link l with
  | Some u => if truthy_str u then " - " ++ u else EmptyString
  | None => EmptyString
  end.

(** A line that is printed only when its field holds a text. *)
Definition optional_line (label : string) (field : option string)
    : list string :=
  match field with
  | Some v => if truthy_str v then [label ++ v] else []
  | None => []
  end.

(** The course line, which always prints the title. *)
Definition spec_course_line (m : CourseMeta) : string :=
  "**Course:** " ++ get_default (title m) "Unknown Course".

(** The header that counts the lessons. *)
Definition spec_count_header (n : nat) : string :=
  nl ++ "**Course Outline (" ++ str_of_int (Z.of_nat n) ++ " lessons):**".

(** The end of an outline: the count and a line per lesson in catalog
    order, or the line that says there are no lessons. *)
Definition spec_lesson_block (lesson_line : LessonMeta -> string)
    (ls : list LessonMeta) : list string :=
  match ls with
  | [] => [nl ++ "**Course Outline:** No lessons available"]
  | _ :: _ => spec_count_header (List.length ls) :: map lesson_line ls
  end.

(** The lines of an outline: the course line, the two optional lines,
    then the lessons. *)
Definition spec_outline_lines (lesson_line : LessonMeta -> string)
    (m : CourseMeta) : list string :=
  (spec_course_line m ::
   optional_line "**Course Link:** " (course_link m) ++
   optional_line "**Instructor:** " (instructor m) ++
   spec_lesson_block lesson_line (get_default (lessons m) []))%list.

Definition spec_outline (m : CourseMeta) : string :=
  join nl (spec_outline_lines spec_lesson_line m).

Definition claimed_outline (m : CourseMeta) : string :=
  join nl (spec_outline_lines claimed_lesson_line m).

(** The entry a resolved title selects: the first of the catalog with
    that exact title. *)
Definition selected_by (all_courses : list CourseMeta) (resolved : string)
    (m : CourseMeta) : Prop :=
  exists before after,
    all_courses = (before ++ m :: after)%list /\
    title m = Some resolved /\
    Forall (fun m' => title m' <> Some resolved) before.

(** No entry of the catalog has that exact title. *)
Definition no_entry_titled (all_courses : list CourseMeta) (resolved : string)
    : Prop :=
  Forall (fun m' => title m' <> Some resolved) all_courses.

(** The two messages of the outline tool. *)
Definition no_course_found (course_name : string) : string :=
  "No course found matching '" ++ course_name ++ "'".

Definition metadata_not_found (resolved : string) : string :=
  "Course metadata not found for '" ++ resolved ++ "'".

(** A course with one lesson whose link is the empty string. *)
Definition course_with_empty_lesson_link : CourseMeta :=
  {| title := Some "Minimal Course";
     instructor := None;
     course_link := None;
     lessons := Some
       [ {| lesson_number := Some 1%Z;
            lesson_title := Some "Basic Lesson";
            lesson_link := Some EmptyString |} ] |}.

(** The course without lessons of test_execute_course_without_lessons. *)
Definition course_without_lessons : CourseMeta :=
  {| title := Some chroma_title;
     instructor := Some "John Doe";
     course_link := Some "https://example.com/course";
     lessons := Some [] |}.

(** A mock tool: a definition, a fixed answer, no [last_sources]. *)
Definition mock_tool (definition : ToolDefinition) (answer : string) : Tool :=
  Other {| OtherTool.definition := definition;
           OtherTool.run := fun _ attr => (Return answer, attr);
           OtherTool.last_sources := None |}.

(** The definition [{"description": "test"}] of
    test_register_tool_without_name. *)
Definition definition_without_name : ToolDefinition :=
  {| name := None; description := Some "test"; input_schema := None |}.

(** A definition whose name is the empty string. *)
Definition definition_with_empty_name : ToolDefinition :=
  {| name := Some EmptyString; description := Some "test";
     input_schema := None |}.

(** Keyword arguments that pass the query alone. *)
Definition query_only (query : string) : Kwargs :=
  {| kw_query := Some query; kw_course_name := None; kw_lesson_number := None |}.

(** ** Registries and what they keep *)

(** A tool with nothing to report: it has no [last_sources], or an empty
    list. *)
Definition quiet (tool : Tool) : Prop :=
  tool_last_sources tool = None \/ tool_last_sources tool = Some [].

(** A registry as [register_tool] fills it: the names are distinct, and
    each tool sits under the non-empty name of its own definition. *)
Definition registry_wf (d : dict Tool) : Prop :=
  NoDup (dict_keys d) /\
  Forall
    (fun kv =>
       name (tool_get_tool_definition (snd kv)) = Some (fst kv) /\
       fst kv <> EmptyString)
    d.

(** A call that asks the store for a lesson link. *)
Definition is_link_call (c : StoreCall) : Prop :=
  match c with
  | call_get_lesson_link _ _ => True
  | _ => False
  end.

(** The registry of test_register_multiple_tools. *)
Definition two_tools_registry : ToolManager.t :=
  {| ToolManager.tools :=
       [ ("search_course_content",
          SearchTool (CourseSearchTool.__init__ mock_vector_store));
         ("get_course_outline",
          OutlineTool (CourseOutlineTool.__init__ mock_vector_store)) ] |}.

(** A result with a document and no metadata beside it. *)
Definition document_without_metadata : SearchResults :=
  {| documents := ["Test content"]; metadata := []; distances := [];
     error := None |}.

(** ** Proofs: strings *)

Lemma str_app_assoc (a b c : string) : (a ++ b) ++ c = a ++ (b ++ c).
Proof.
  induction a as [|ch a IH]; simpl; [reflexivity | now rewrite IH].
Qed.

Lemma str_app_nil_r (a : string) : a ++ EmptyString = a.
Proof.
  induction a as [|ch a IH]; simpl; [reflexivity | now rewrite IH].
Qed.

Lemma truthy_str_true (s : string) : truthy_str s = true <-> s <> EmptyString.
Proof. destruct s; simpl; split; congruence. Qed.

(** ** Proofs: CourseSearchTool *)

(** The loop appends, in order, the entry and the provenance record of
    every pair, asks the store for a link once per entry that has a lesson
    number, and leaves the tool object alone. *)
Lemma format_loop_spec (st : VectorStore) (pairs : list (string * Metadata)) :
  forall (formatted : list string) (sources : list Source)
         (c : Ctx CourseSearchTool.t),
    CourseSearchTool.format_loop st pairs formatted sources c =
    (Return ((formatted ++ map spec_entry pairs)%list,
             (sources ++ map (spec_source st) pairs)%list),
     {| obj := obj c; calls := (calls c ++ spec_link_calls pairs)%list |}).
Proof.
  induction pairs as [|[doc meta] rest IH]; intros formatted sources c.
  - simpl. rewrite !app_nil_r. destruct c; reflexivity.
  - destruct meta as [ttl [n|]]; cbn [CourseSearchTool.format_loop].
    + unfold bind, store_get_lesson_link, record_call, ret, append. cbn.
      rewrite IH. cbn.
      unfold spec_entry, spec_source, spec_label. cbn.
      rewrite <- !app_assoc. cbn.
      rewrite !str_app_assoc. reflexivity.
    + unfold bind, ret, append. cbn.
      rewrite IH. cbn.
      unfold spec_entry, spec_source, spec_label. cbn.
      rewrite <- !app_assoc. cbn.
      rewrite !str_app_assoc, !str_app_nil_r. reflexivity.
Qed.

(** The three ways through [execute]: the error of the store, the message
    for an empty result, and the formatted entries.  Only the third
    assigns [last_sources]. *)
Lemma execute_cases (self : CourseSearchTool.t) (cs : list StoreCall)
    (query : string) (course_name : option string) (lesson_number : option Z) :
  let results :=
    search (CourseSearchTool.store self) query course_name lesson_number in
  let pairs := combine (documents results) (metadata results) in
  let searched := (cs ++ [call_search query course_name lesson_number])%list in
  CourseSearchTool.execute query course_name lesson_number
    {| obj := self; calls := cs |} =
  if truthy_opt_str (error results) then
    (Return (get_default (error results) EmptyString),
     {| obj := self; calls := searched |})
  else if is_empty results then
    (Return
       ("No relevant content found" ++
        match course_name with
        | Some c => if truthy_str c then " in course '" ++ c ++ "'" else EmptyString
        | None => EmptyString
        end ++
        match lesson_number with
        | Some n =>
            if (n =? 0)%Z then EmptyString else " in lesson " ++ str_of_int n
        | None => EmptyString
        end ++ "."),
     {| obj := self; calls := searched |})
  else
    (Return (spec_search_output pairs),
     {| obj :=
          {| CourseSearchTool.store := CourseSearchTool.store self;
             CourseSearchTool.last_sources :=
               map (spec_source (CourseSearchTool.store self)) pairs |};
        calls := (searched ++ spec_link_calls pairs)%list |}).
Proof.
  intros results pairs searched.
  cbv beta iota zeta delta
    [CourseSearchTool.execute bind get_self store_search record_call ret
     obj calls].
  change (search (CourseSearchTool.store self) query course_name lesson_number)
    with results.
  change (cs ++ [call_search query course_name lesson_number])%list
    with searched.
  assert (Hfmt :
    CourseSearchTool._format_results results
      {| obj := self; calls := searched |} =
    (Return (spec_search_output pairs),
     {| obj :=
          {| CourseSearchTool.store := CourseSearchTool.store self;
             CourseSearchTool.last_sources :=
               map (spec_source (CourseSearchTool.store self)) pairs |};
        calls := (searched ++ spec_link_calls pairs)%list |})).
  { unfold CourseSearchTool._format_results, bind, get_self, set_self, ret.
    cbn [obj calls]. rewrite format_loop_spec. reflexivity. }
  destruct (error results) as [e|]; cbn [truthy_opt_str get_default];
    [destruct (truthy_str e); [reflexivity|] |];
    (destruct (is_empty results); [| exact Hfmt]);
    do 2 f_equal;
    destruct course_name as [c|], lesson_number as [n|];
    cbn [truthy_opt_str truthy_opt_int str_of_opt_str str_of_opt_int];
    try destruct (truthy_str c); try destruct (n =? 0)%Z; cbn [negb];
    cbn [String.append]; rewrite ?str_app_assoc, ?str_app_nil_r;
    cbn [String.append]; reflexivity.
Qed.

(** C1.  For a result with no error and at least one document, [execute]
    returns the entries of the (document, metadata) pairs in the order of
    the result, each the header [[title]] or [[title - Lesson n]] (the
    lesson segment exactly when the metadata has a lesson number), a
    newline and the document, joined by a blank line. *)
Theorem execute_formats_results :
  forall (self : CourseSearchTool.t) (cs : list StoreCall) (query : string)
         (course_name : option string) (lesson_number : option Z)
         (results : SearchResults),
    search (CourseSearchTool.store self) query course_name lesson_number
      = results ->
    error results = None ->
    documents results <> [] ->
    fst (CourseSearchTool.execute query course_name lesson_number
           {| obj := self; calls := cs |}) =
    Return (spec_search_output (combine (documents results) (metadata results))).
Proof.
  intros self cs query course_name lesson_number results Hsearch Herr Hdocs.
  rewrite execute_cases, Hsearch, Herr. cbn [truthy_opt_str].
  unfold is_empty. destruct (documents results); [contradiction|reflexivity].
Qed.

Lemma execute_formats_results_witness :
  fst (CourseSearchTool.execute "What are vector databases?" None None
         (fresh (CourseSearchTool.__init__ mock_vector_store))) =
  Return (spec_search_output
            (combine (documents sample_search_results)
                     (metadata sample_search_results))).
Proof.
  apply (execute_formats_results (CourseSearchTool.__init__ mock_vector_store)
           [] "What are vector databases?" None None sample_search_results).
  - reflexivity.
  - reflexivity.
  - simpl. discriminate.
Defined.

(** The two hits of the sample result come out as two blocks in index
    order. *)
Example sample_search_output :
  fst (CourseSearchTool.execute "What are vector databases?" None None
         (fresh (CourseSearchTool.__init__ mock_vector_store))) =
  Return
    ("[Advanced Retrieval for AI with Chroma - Lesson 1]" ++ nl ++
     "Vector databases store embeddings for semantic search" ++ nl ++ nl ++
     "[Advanced Retrieval for AI with Chroma - Lesson 2]" ++ nl ++
     "ChromaDB is a popular vector database solution").
Proof. reflexivity. Qed.

(** C2.  For a result with no error and at least one document, one
    invocation of [execute] replaces [last_sources] by one provenance
    record per (document, metadata) pair, in order: the text is the title,
    with the lesson segment when the metadata has a lesson number, and the
    url is what [get_lesson_link] answers for the title and the lesson
    number, or unset without a lesson number.  The store is asked for a
    lesson link once per entry with a lesson number and never for an entry
    without one. *)
Theorem execute_stores_sources :
  forall (self : CourseSearchTool.t) (cs : list StoreCall) (query : string)
         (course_name : option string) (lesson_number : option Z)
         (results : SearchResults),
    search (CourseSearchTool.store self) query course_name lesson_number
      = results ->
    error results = None ->
    documents results <> [] ->
    let pairs := combine (documents results) (metadata results) in
    let after :=
      snd (CourseSearchTool.execute query course_name lesson_number
             {| obj := self; calls := cs |}) in
    CourseSearchTool.last_sources (obj after) =
      map (spec_source (CourseSearchTool.store self)) pairs /\
    List.length (CourseSearchTool.last_sources (obj after)) = List.length pairs /\
    calls after =
      (cs ++ call_search query course_name lesson_number
          :: spec_link_calls pairs)%list /\
    (forall course_title n,
        In (call_get_lesson_link course_title n) (spec_link_calls pairs) ->
        exists doc meta,
          In (doc, meta) pairs /\
          meta_lesson_number meta = Some n /\
          get_default (meta_course_title meta) "unknown" = course_title).
Proof.
  intros self cs query course_name lesson_number results Hsearch Herr Hdocs
         pairs after.
  assert (Hafter :
    after =
    {| obj :=
         {| CourseSearchTool.store := CourseSearchTool.store self;
            CourseSearchTool.last_sources :=
              map (spec_source (CourseSearchTool.store self)) pairs |};
       calls :=
         ((cs ++ [call_search query course_name lesson_number]) ++
          spec_link_calls pairs)%list |}).
  { unfold after. rewrite execute_cases, Hsearch, Herr. cbn [truthy_opt_str].
    unfold is_empty. destruct (documents results); [contradiction|reflexivity]. }
  rewrite Hafter. cbn [obj calls CourseSearchTool.last_sources].
  repeat split.
  - apply length_map.
  - rewrite <- app_assoc. reflexivity.
  - intros course_title n Hin. unfold spec_link_calls in Hin.
    apply in_flat_map in Hin. destruct Hin as [[doc meta] [Hp Hc]].
    cbn [snd] in Hc. destruct (meta_lesson_number meta) as [m|] eqn:Hm.
    + destruct Hc as [Hc|[]]. inversion Hc; subst.
      exists doc, meta. auto.
    + contradiction.
Qed.

Lemma execute_stores_sources_witness :
  CourseSearchTool.last_sources
    (obj (snd (CourseSearchTool.execute "test query" None None
                 (fresh (CourseSearchTool.__init__ mock_vector_store))))) =
  [ {| text := "Advanced Retrieval for AI with Chroma - Lesson 1";
       url := Some "https://example.com/lesson1" |};
    {| text := "Advanced Retrieval for AI with Chroma - Lesson 2";
       url := Some "https://example.com/lesson1" |} ].
Proof.
  apply (execute_stores_sources (CourseSearchTool.__init__ mock_vector_store)
           [] "test query" None None sample_search_results).
  - reflexivity.
  - reflexivity.
  - simpl. discriminate.
Defined.

(** An entry without a lesson number gets no url and the store is not
    asked for a link (test_source_tracking_without_lesson_number). *)
Example entry_without_lesson_number :
  let results :=
    {| documents := ["Test content"];
       metadata := [ {| meta_course_title := Some "Test Course";
                        meta_lesson_number := None |} ];
       distances := [(1 # 10)%Q];
       error := None |} in
  let after :=
    snd (CourseSearchTool.execute "test query" None None
           (fresh (CourseSearchTool.__init__
                     (mock_store results None [] (Some "https://example.com/lesson1"))))) in
  CourseSearchTool.last_sources (obj after) =
    [ {| text := "Test Course"; url := None |} ] /\
  calls after = [call_search "test query" None None].
Proof. split; reflexivity. Qed.

(** C3, as stated, fails: with the course name supplied as the empty
    string and an empty result, [execute] answers the bare sentence, which
    is not the message of the specification, with or without the final
    full stop. *)
Lemma execute_empty_message_counterexample :
  let out :=
    fst (CourseSearchTool.execute "test" (Some EmptyString) None
           (fresh (CourseSearchTool.__init__
                     (mock_store empty_search_results None [] None)))) in
  out = Return "No relevant content found." /\
  out <> Return (claimed_empty_message (Some EmptyString) None) /\
  out <> Return (claimed_empty_message (Some EmptyString) None ++ ".").
Proof.
  cbv zeta. split; [reflexivity|]. split; intro H; vm_compute in H; discriminate H.
Qed.

(** C3, amended.  For an empty result with no error, [execute] returns
    the sentence "No relevant content found", then " in course 'c'" exactly
    when a non-empty course name [c] was supplied, then " in lesson n"
    when a lesson number was supplied and none when it was not, then a
    full stop.  The lesson number 0 is left aside. *)
Theorem execute_empty_message :
  forall (self : CourseSearchTool.t) (cs : list StoreCall) (query : string)
         (course_name : option string) (lesson_number : option Z)
         (results : SearchResults),
    search (CourseSearchTool.store self) query course_name lesson_number
      = results ->
    error results = None ->
    documents results = [] ->
    lesson_number <> Some 0%Z ->
    fst (CourseSearchTool.execute query course_name lesson_number
           {| obj := self; calls := cs |}) =
    Return (spec_empty_message course_name lesson_number).
Proof.
  intros self cs query course_name lesson_number results Hsearch Herr Hdocs Hl.
  rewrite execute_cases, Hsearch, Herr. cbn [truthy_opt_str].
  unfold is_empty. rewrite Hdocs. cbn [fst]. unfold spec_empty_message.
  destruct lesson_number as [n|]; [|reflexivity].
  destruct (Z.eqb_spec n 0) as [->|Hn]; [congruence|reflexivity].
Qed.

Lemma execute_empty_message_witness :
  fst (CourseSearchTool.execute "test" (Some "NonExistent") (Some 99%Z)
         (fresh (CourseSearchTool.__init__
                   (mock_store empty_search_results None [] None)))) =
  Return "No relevant content found in course 'NonExistent' in lesson 99.".
Proof.
  apply (execute_empty_message
           (CourseSearchTool.__init__
              (mock_store empty_search_results None [] None))
           [] "test" (Some "NonExistent") (Some 99%Z) empty_search_results).
  - reflexivity.
  - reflexivity.
  - reflexivity.
  - discriminate.
Defined.

(** With no filter supplied the message names neither. *)
Example no_filter_names_no_filter :
  fst (CourseSearchTool.execute "nonexistent content" None None
         (fresh (CourseSearchTool.__init__
                   (mock_store empty_search_results None [] None)))) =
  Return "No relevant content found.".
Proof. reflexivity. Qed.

(** What the code does at lesson number 0: the truth test of [execute]
    takes 0 for no lesson, whereas [_format_results] tests against
    [None] and prints lesson 0. *)
Example lesson_zero_is_not_named :
  fst (CourseSearchTool.execute "test" None (Some 0%Z)
         (fresh (CourseSearchTool.__init__
                   (mock_store empty_search_results None [] None)))) =
  Return "No relevant content found." /\
  fst (CourseSearchTool.execute "test" None (Some 0%Z)
         (fresh (CourseSearchTool.__init__
                   (mock_store
                      {| documents := ["Test content"];
                         metadata := [ {| meta_course_title := Some "Test Course";
                                          meta_lesson_number := Some 0%Z |} ];
                         distances := [(1 # 10)%Q];
                         error := None |}
                      None [] None)))) =
  Return ("[Test Course - Lesson 0]" ++ nl ++ "Test content").
Proof. split; reflexivity. Qed.

(** C4, as stated, fails: a result whose error is set to the empty string
    is not taken for an error, and [execute] goes on to the message for an
    empty result. *)
Lemma execute_returns_error_counterexample :
  error (error_search_results EmptyString) = Some EmptyString /\
  fst (CourseSearchTool.execute "test query" None None
         (fresh (CourseSearchTool.__init__
                   (mock_store (error_search_results EmptyString) None [] None)))) =
  Return "No relevant content found." /\
  Return "No relevant content found." <> Return EmptyString.
Proof. repeat split. discriminate. Qed.

(** C4, amended.  For a result whose error is a non-empty string,
    [execute] returns exactly that string, and returns it normally. *)
Theorem execute_returns_error :
  forall (self : CourseSearchTool.t) (cs : list StoreCall) (query : string)
         (course_name : option string) (lesson_number : option Z)
         (results : SearchResults) (e : string),
    search (CourseSearchTool.store self) query course_name lesson_number
      = results ->
    error results = Some e ->
    e <> EmptyString ->
    fst (CourseSearchTool.execute query course_name lesson_number
           {| obj := self; calls := cs |}) = Return e.
Proof.
  intros self cs query course_name lesson_number results e Hsearch Herr He.
  rewrite execute_cases, Hsearch, Herr. cbn [truthy_opt_str get_default].
  apply truthy_str_true in He. rewrite He. reflexivity.
Qed.

Lemma execute_returns_error_witness :
  fst (CourseSearchTool.execute "test query" None None
         (fresh (CourseSearchTool.__init__
                   (mock_store (error_search_results "Test search error")
                      None [] None)))) =
  Return "Test search error".
Proof.
  apply (execute_returns_error
           (CourseSearchTool.__init__
              (mock_store (error_search_results "Test search error") None [] None))
           [] "test query" None None
           (error_search_results "Test search error") "Test search error").
  - reflexivity.
  - reflexivity.
  - discriminate.
Defined.

(** C10.  An invocation of [execute] that returns the error of the store
    or the message for an empty result leaves the tool object, and so its
    [last_sources], as it was.  [last_sources] is assigned only on the
    remaining path, where the result has no error and at least one
    document (hence, its lists being parallel, at least one entry to
    format): there it becomes the provenance of that result. *)
Theorem execute_failure_keeps_sources :
  forall (self : CourseSearchTool.t) (cs : list StoreCall) (query : string)
         (course_name : option string) (lesson_number : option Z),
    let results :=
      search (CourseSearchTool.store self) query course_name lesson_number in
    let pairs := combine (documents results) (metadata results) in
    let out :=
      CourseSearchTool.execute query course_name lesson_number
        {| obj := self; calls := cs |} in
    (forall e, error results = Some e -> e <> EmptyString ->
       fst out = Return e /\ obj (snd out) = self) /\
    (truthy_opt_str (error results) = false -> documents results = [] ->
       (exists filter_info,
          fst out = Return ("No relevant content found" ++ filter_info ++ ".")) /\
       obj (snd out) = self) /\
    (obj (snd out) <> self ->
       truthy_opt_str (error results) = false /\
       documents results <> [] /\
       (List.length (documents results) = List.length (metadata results) ->
        pairs <> [])) /\
    (truthy_opt_str (error results) = false -> documents results <> [] ->
       CourseSearchTool.last_sources (obj (snd out)) =
       map (spec_source (CourseSearchTool.store self)) pairs).
Proof.
  intros self cs query course_name lesson_number results pairs out.
  pose proof (execute_cases self cs query course_name lesson_number) as Hc.
  cbv zeta in Hc. fold results in Hc. fold pairs in Hc. fold out in Hc.
  split; [|split; [|split]].
  - intros e He Hne. rewrite Hc, He. cbn.
    apply truthy_str_true in Hne. rewrite Hne. split; reflexivity.
  - intros Herr Hdocs. rewrite Hc, Herr. unfold is_empty. rewrite Hdocs.
    cbn [fst snd obj]. split; [|reflexivity].
    eexists (_ ++ _). rewrite str_app_assoc. reflexivity.
  - intros Hchanged. rewrite Hc in Hchanged. unfold is_empty in Hchanged.
    destruct (truthy_opt_str (error results));
      [cbn in Hchanged; contradiction|].
    split; [reflexivity|].
    destruct (documents results) as [|d ds] eqn:Hdocs;
      [cbn in Hchanged; contradiction|].
    split; [discriminate|].
    intros Hlen Hp. unfold pairs in Hp.
    destruct (metadata results); [discriminate Hlen | discriminate Hp].
  - intros Herr Hdocs. rewrite Hc, Herr. unfold is_empty.
    destruct (documents results); [contradiction|reflexivity].
Qed.

(** After a successful search, a failed one and an empty one leave the
    provenance of the first in place. *)
Lemma execute_failure_keeps_sources_witness :
  let searched :=
    obj (snd (CourseSearchTool.execute "test query" None None
                (fresh (CourseSearchTool.__init__ mock_vector_store)))) in
  let failing :=
    {| CourseSearchTool.store :=
         mock_store (error_search_results "Test search error") None [] None;
       CourseSearchTool.last_sources := CourseSearchTool.last_sources searched |} in
  let empty :=
    {| CourseSearchTool.store := mock_store empty_search_results None [] None;
       CourseSearchTool.last_sources := CourseSearchTool.last_sources searched |} in
  List.length (CourseSearchTool.last_sources searched) = 2%nat /\
  obj (snd (CourseSearchTool.execute "again" None None (fresh failing))) = failing /\
  obj (snd (CourseSearchTool.execute "again" None None (fresh empty))) = empty.
Proof.
  cbv zeta. split; [reflexivity|]. split.
  - refine (proj2 (proj1 (execute_failure_keeps_sources _ [] "again" None None)
                     "Test search error" _ _)).
    + reflexivity.
    + discriminate.
  - refine (proj2 (proj1 (proj2 (execute_failure_keeps_sources _ [] "again" None None))
                     _ _)).
    + reflexivity.
    + reflexivity.
Defined.

(** ** Proofs: CourseOutlineTool *)

(** The lesson loop appends one line per lesson, in catalog order. *)
Lemma lessons_loop_spec (ls : list LessonMeta) :
  forall outline_parts : list string,
    CourseOutlineTool.lessons_loop ls outline_parts =
    (outline_parts ++ map spec_lesson_line ls)%list.
Proof.
  induction ls as [|l ls IH]; intros outline_parts.
  - simpl. now rewrite app_nil_r.
  - cbn [CourseOutlineTool.lessons_loop map]. rewrite IH.
    unfold append. rewrite <- app_assoc. cbn [app]. do 2 f_equal.
    unfold spec_lesson_line.
    destruct (lesson_link l) as [u|];
      cbn [truthy_opt_str str_of_opt_str]; [destruct (truthy_str u)|];
      rewrite ?str_app_assoc, ?str_app_nil_r; reflexivity.
Qed.

Lemma format_course_outline_spec (m : CourseMeta) :
  CourseOutlineTool._format_course_outline m = spec_outline m.
Proof.
  unfold CourseOutlineTool._format_course_outline, spec_outline,
    spec_outline_lines, spec_lesson_block, optional_line, append.
  f_equal. cbn [app].
  destruct (course_link m) as [cl|];
    cbn [truthy_opt_str str_of_opt_str]; [destruct (truthy_str cl)|];
    (destruct (instructor m) as [i|];
     cbn [truthy_opt_str str_of_opt_str]; [destruct (truthy_str i)|]);
    (destruct (get_default (lessons m) []) as [|l ls];
     [reflexivity | rewrite lessons_loop_spec; cbn [app]; reflexivity]).
Qed.

Lemma title_is_true (m : CourseMeta) (resolved : string) :
  CourseOutlineTool.title_is m resolved = true <-> title m = Some resolved.
Proof.
  unfold CourseOutlineTool.title_is. destruct (title m) as [t|].
  - rewrite String.eqb_eq. split; congruence.
  - split; discriminate.
Qed.

Lemma find_matching_course_selected (all_courses : list CourseMeta)
    (resolved : string) (m : CourseMeta) :
  selected_by all_courses resolved m ->
  CourseOutlineTool.find_matching_course all_courses resolved = Some m.
Proof.
  intros (before & after & -> & Ht & Hbefore).
  induction Hbefore as [|m' before Hm' _ IH]; cbn.
  - apply title_is_true in Ht. now rewrite Ht.
  - destruct (CourseOutlineTool.title_is m' resolved) eqn:E; [|exact IH].
    apply title_is_true in E. contradiction.
Qed.

Lemma find_matching_course_none (all_courses : list CourseMeta)
    (resolved : string) :
  no_entry_titled all_courses resolved ->
  CourseOutlineTool.find_matching_course all_courses resolved = None.
Proof.
  induction 1 as [|m' rest Hm' _ IH]; cbn; [reflexivity|].
  destruct (CourseOutlineTool.title_is m' resolved) eqn:E; [|exact IH].
  apply title_is_true in E. contradiction.
Qed.

(** An entry that was found by its title is a dict with a key. *)
Lemma find_matching_course_truthy (all_courses : list CourseMeta)
    (resolved : string) (m : CourseMeta) :
  CourseOutlineTool.find_matching_course all_courses resolved = Some m ->
  truthy_course_meta m = true /\ title m = Some resolved.
Proof.
  induction all_courses as [|m' rest IH]; cbn; [discriminate|].
  destruct (CourseOutlineTool.title_is m' resolved) eqn:E; [|exact IH].
  intros [= ->]. apply title_is_true in E.
  unfold truthy_course_meta. rewrite E. auto.
Qed.

(** The ways through [execute] of the outline tool. *)
Lemma outline_execute_cases (self : CourseOutlineTool.t) (cs : list StoreCall)
    (course_name : string) :
  let st := CourseOutlineTool.store self in
  let resolved_call := (cs ++ [call_resolve_course_name course_name])%list in
  CourseOutlineTool.execute course_name {| obj := self; calls := cs |} =
  match _resolve_course_name st course_name with
  | None =>
      (Return (no_course_found course_name),
       {| obj := self; calls := resolved_call |})
  | Some resolved =>
      if truthy_str resolved then
        (Return
           match CourseOutlineTool.find_matching_course
                   (get_all_courses_metadata st) resolved with
           | Some m => spec_outline m
           | None => metadata_not_found resolved
           end,
         {| obj := self;
            calls := (resolved_call ++ [call_get_all_courses_metadata])%list |})
      else
        (Return (no_course_found course_name),
         {| obj := self; calls := resolved_call |})
  end.
Proof.
  intros st resolved_call.
  cbv beta iota zeta delta
    [CourseOutlineTool.execute bind get_self store_resolve_course_name
     store_get_all_courses_metadata record_call ret obj calls].
  fold st. fold resolved_call.
  destruct (_resolve_course_name st course_name) as [resolved|]; [|reflexivity].
  destruct (truthy_str resolved); cbn [negb]; [|reflexivity].
  destruct (CourseOutlineTool.find_matching_course
              (get_all_courses_metadata st) resolved) as [m|] eqn:Hfind;
    [|reflexivity].
  apply find_matching_course_truthy in Hfind. destruct Hfind as [Ht _].
  rewrite Ht. cbn [negb]. rewrite format_course_outline_spec. reflexivity.
Qed.

(** C5, as stated, fails: a lesson whose link is the empty string has a
    link, yet its line ends after the title, without the " - " of the
    specification. *)
Lemma outline_execute_renders_counterexample :
  let out :=
    fst (CourseOutlineTool.execute "Minimal"
           (fresh (CourseOutlineTool.__init__
                     (mock_store empty_search_results (Some "Minimal Course")
                        [course_with_empty_lesson_link] None)))) in
  out =
    Return ("**Course:** Minimal Course" ++ nl ++ nl ++
            "**Course Outline (1 lessons):**" ++ nl ++
            "Lesson 1: Basic Lesson") /\
  claimed_outline course_with_empty_lesson_link =
    "**Course:** Minimal Course" ++ nl ++ nl ++
    "**Course Outline (1 lessons):**" ++ nl ++
    "Lesson 1: Basic Lesson - " /\
  out <> Return (claimed_outline course_with_empty_lesson_link).
Proof.
  cbv zeta. split; [reflexivity|]. split; [reflexivity|].
  intro H. vm_compute in H. discriminate H.
Qed.

(** C5, amended.  For the course metadata entry that a non-empty resolved
    title selects, [execute] renders the Course line with the title, a
    Course Link line only when the course link is a non-empty text, an
    Instructor line only when the instructor is a non-empty text, then,
    when there are lessons, the header that counts them and one line per
    lesson in catalog order, with " - link" appended exactly when the
    lesson link is a non-empty text, and, when there are none, the line
    "**Course Outline:** No lessons available" without the count header. *)
Theorem outline_execute_renders :
  forall (self : CourseOutlineTool.t) (cs : list StoreCall)
         (course_name resolved : string) (m : CourseMeta),
    _resolve_course_name (CourseOutlineTool.store self) course_name
      = Some resolved ->
    resolved <> EmptyString ->
    selected_by (get_all_courses_metadata (CourseOutlineTool.store self))
      resolved m ->
    fst (CourseOutlineTool.execute course_name {| obj := self; calls := cs |}) =
      Return (spec_outline m) /\
    spec_course_line m = "**Course:** " ++ resolved.
Proof.
  intros self cs course_name resolved m Hres Hne Hsel.
  rewrite outline_execute_cases. cbv zeta. rewrite Hres.
  apply truthy_str_true in Hne. rewrite Hne.
  rewrite (find_matching_course_selected _ _ _ Hsel).
  split; [reflexivity|].
  destruct Hsel as (_ & _ & _ & Ht & _).
  unfold spec_course_line. now rewrite Ht.
Qed.

Lemma outline_execute_renders_witness :
  fst (CourseOutlineTool.execute "Advanced Retrieval"
         (fresh (CourseOutlineTool.__init__ mock_vector_store))) =
  Return
    ("**Course:** Advanced Retrieval for AI with Chroma" ++ nl ++
     "**Course Link:** https://example.com/course" ++ nl ++
     "**Instructor:** John Doe" ++ nl ++ nl ++
     "**Course Outline (2 lessons):**" ++ nl ++
     "Lesson 1: Introduction to Vectors - https://example.com/lesson1" ++ nl ++
     "Lesson 2: Embedding Basics - https://example.com/lesson2").
Proof.
  refine (proj1 (outline_execute_renders
                   (CourseOutlineTool.__init__ mock_vector_store) []
                   "Advanced Retrieval" chroma_title
                   (hd course_without_lessons sample_courses) _ _ _)).
  - reflexivity.
  - discriminate.
  - exists [], []. repeat split. constructor.
Defined.

(** A course with no lessons: the line that says so, and no count header
    (test_execute_course_without_lessons). *)
Example outline_of_course_without_lessons :
  fst (CourseOutlineTool.execute "Advanced Retrieval"
         (fresh (CourseOutlineTool.__init__
                   (mock_store empty_search_results (Some chroma_title)
                      [course_without_lessons] None)))) =
  Return
    ("**Course:** Advanced Retrieval for AI with Chroma" ++ nl ++
     "**Course Link:** https://example.com/course" ++ nl ++
     "**Instructor:** John Doe" ++ nl ++ nl ++
     "**Course Outline:** No lessons available").
Proof. reflexivity. Qed.

(** C6, as stated, fails: when the resolver returns the empty string, a
    title that no entry of the catalog has, [execute] answers that no
    course was found, not that the metadata of the title is missing. *)
Lemma outline_execute_failures_counterexample :
  let st := mock_store empty_search_results (Some EmptyString) [] None in
  _resolve_course_name st "Anything" = Some EmptyString /\
  no_entry_titled (get_all_courses_metadata st) EmptyString /\
  fst (CourseOutlineTool.execute "Anything"
         (fresh (CourseOutlineTool.__init__ st))) =
    Return "No course found matching 'Anything'" /\
  Return "No course found matching 'Anything'" <>
    Return (metadata_not_found EmptyString).
Proof.
  cbv zeta. split; [reflexivity|]. split; [constructor|].
  split; [reflexivity|]. intro H. vm_compute in H. discriminate H.
Qed.

(** C6, amended.  [execute] returns "No course found matching
    'course_name'" whenever the resolver returns no title or the empty
    string, and "Course metadata not found for 'title'" whenever it
    returns a non-empty title that no entry of the courses metadata list
    has; in both cases the call returns that message normally, no outline
    is rendered and the tool is unchanged. *)
Theorem outline_execute_failures :
  forall (self : CourseOutlineTool.t) (cs : list StoreCall)
         (course_name : string),
    let st := CourseOutlineTool.store self in
    let out :=
      CourseOutlineTool.execute course_name {| obj := self; calls := cs |} in
    (_resolve_course_name st course_name = None \/
     _resolve_course_name st course_name = Some EmptyString ->
     fst out = Return (no_course_found course_name) /\ obj (snd out) = self) /\
    (forall resolved,
       _resolve_course_name st course_name = Some resolved ->
       resolved <> EmptyString ->
       no_entry_titled (get_all_courses_metadata st) resolved ->
       fst out = Return (metadata_not_found resolved) /\ obj (snd out) = self).
Proof.
  intros self cs course_name st out.
  unfold out. rewrite outline_execute_cases. cbv zeta. fold st. split.
  - intros [H|H]; rewrite H; split; reflexivity.
  - intros resolved Hres Hne Hnone. rewrite Hres.
    apply truthy_str_true in Hne. rewrite Hne.
    rewrite (find_matching_course_none _ _ Hnone). split; reflexivity.
Qed.

Lemma outline_execute_failures_witness :
  fst (CourseOutlineTool.execute "NonExistent Course"
         (fresh (CourseOutlineTool.__init__
                   (mock_store empty_search_results None sample_courses None)))) =
    Return "No course found matching 'NonExistent Course'" /\
  fst (CourseOutlineTool.execute "Advanced Retrieval"
         (fresh (CourseOutlineTool.__init__
                   (mock_store empty_search_results (Some chroma_title) [] None)))) =
    Return "Course metadata not found for 'Advanced Retrieval for AI with Chroma'".
Proof.
  split.
  - refine (proj1 (proj1 (outline_execute_failures
                            (CourseOutlineTool.__init__
                               (mock_store empty_search_results None
                                  sample_courses None))
                            [] "NonExistent Course") _)).
    left. reflexivity.
  - refine (proj1 (proj2 (outline_execute_failures
                            (CourseOutlineTool.__init__
                               (mock_store empty_search_results
                                  (Some chroma_title) [] None))
                            [] "Advanced Retrieval") chroma_title _ _ _)).
    + reflexivity.
    + discriminate.
    + constructor.
Defined.

(** ** Proofs: ToolManager *)

Section DictFacts.
Context {V : Type}.

Lemma dict_get_set_same (k : string) (v : V) (d : dict V) :
  dict_get k (dict_set k v d) = Some v.
Proof.
  induction d as [|[k' v'] rest IH]; cbn.
  - now rewrite String.eqb_refl.
  - destruct (String.eqb k k') eqn:E; cbn; rewrite E; [reflexivity|exact IH].
Qed.

Lemma dict_get_set_other (k k' : string) (v : V) (d : dict V) :
  k' <> k -> dict_get k' (dict_set k v d) = dict_get k' d.
Proof.
  intros Hne. induction d as [|[k0 v0] rest IH]; cbn.
  - apply String.eqb_neq in Hne. now rewrite Hne.
  - destruct (String.eqb k k0) eqn:E; cbn.
    + apply String.eqb_eq in E. subst k0.
      apply String.eqb_neq in Hne. now rewrite Hne.
    + destruct (String.eqb k' k0); [reflexivity|exact IH].
Qed.

Lemma dict_get_map_values (f : V -> V) (k : string) (d : dict V) :
  dict_get k (map (fun kv => (fst kv, f (snd kv))) d) =
  option_map f (dict_get k d).
Proof.
  induction d as [|[k' v'] rest IH]; cbn; [reflexivity|].
  destruct (String.eqb k k'); [reflexivity|exact IH].
Qed.
End DictFacts.

(** Resetting a tool that has [last_sources] leaves it with the empty
    list, and a tool without the attribute as it is. *)
Lemma reset_tool_sources (tool : Tool) :
  tool_last_sources (ToolManager.reset_tool tool) =
  match tool_last_sources tool with
  | Some _ => Some []
  | None => None
  end.
Proof.
  unfold ToolManager.reset_tool.
  destruct tool as [t|t|t]; cbn; [reflexivity|reflexivity|].
  destruct (OtherTool.last_sources t) eqn:E; cbn; [reflexivity|exact E].
Qed.

Lemma reset_tool_idempotent (tool : Tool) :
  ToolManager.reset_tool (ToolManager.reset_tool tool) =
  ToolManager.reset_tool tool.
Proof.
  unfold ToolManager.reset_tool at 2 3.
  destruct (tool_last_sources tool) eqn:E.
  - unfold ToolManager.reset_tool.
    destruct tool as [t|t|t]; cbn in *; try reflexivity; discriminate.
  - unfold ToolManager.reset_tool. now rewrite E.
Qed.

(** The scan of [get_last_sources] finds nothing among tools that were
    reset. *)
Lemma first_sources_reset (d : dict Tool) :
  ToolManager.first_sources
    (dict_values (map (fun kv => (fst kv, ToolManager.reset_tool (snd kv))) d)) = [].
Proof.
  induction d as [|[k tool] rest IH]; cbn; [reflexivity|].
  rewrite reset_tool_sources.
  destruct (tool_last_sources tool); exact IH.
Qed.

(** C7, as stated, fails: a definition whose name is the empty string
    does contain a name, yet [register_tool] raises and stores nothing. *)
Lemma register_tool_counterexample :
  let tool := mock_tool definition_with_empty_name "answer" in
  let out := ToolManager.register_tool tool (fresh ToolManager.__init__) in
  name (tool_get_tool_definition tool) = Some EmptyString /\
  fst out = Raise (ValueError "Tool must have a 'name' in its definition") /\
  dict_get EmptyString (ToolManager.tools (obj (snd out))) = None.
Proof. repeat split. Qed.

(** C7, amended.  [register_tool] raises, at once, for every tool whose
    definition has no name or the empty string for a name, and then the
    registry is unchanged; for every tool whose definition has a non-empty
    name it returns normally with the tool stored under that name, in
    place of any tool registered under it before, and with the other
    names as they were. *)
Theorem register_tool_spec :
  forall (self : ToolManager.t) (cs : list StoreCall) (tool : Tool),
    let before := {| obj := self; calls := cs |} in
    let out := ToolManager.register_tool tool before in
    (name (tool_get_tool_definition tool) = None \/
     name (tool_get_tool_definition tool) = Some EmptyString ->
     fst out = Raise (ValueError "Tool must have a 'name' in its definition") /\
     snd out = before) /\
    (forall n,
       name (tool_get_tool_definition tool) = Some n ->
       n <> EmptyString ->
       fst out = Return tt /\
       ToolManager.tools (obj (snd out)) =
         dict_set n tool (ToolManager.tools self) /\
       dict_get n (ToolManager.tools (obj (snd out))) = Some tool /\
       (forall k, k <> n ->
          dict_get k (ToolManager.tools (obj (snd out))) =
          dict_get k (ToolManager.tools self))).
Proof.
  intros self cs tool before out. unfold out, before.
  cbv beta iota zeta delta
    [ToolManager.register_tool bind get_self set_self raise ret obj calls].
  split.
  - intros [H|H]; rewrite H; split; reflexivity.
  - intros n Hn Hne. rewrite Hn. apply truthy_str_true in Hne. rewrite Hne.
    cbn. repeat split.
    + apply dict_get_set_same.
    + intros k Hk. now apply dict_get_set_other.
Qed.

Lemma register_tool_spec_witness :
  fst (ToolManager.register_tool
         (mock_tool definition_without_name "answer")
         (fresh ToolManager.__init__)) =
    Raise (ValueError "Tool must have a 'name' in its definition") /\
  dict_get "search_course_content"
    (ToolManager.tools
       (obj (snd (ToolManager.register_tool
                    (SearchTool (CourseSearchTool.__init__ mock_vector_store))
                    (fresh ToolManager.__init__))))) =
    Some (SearchTool (CourseSearchTool.__init__ mock_vector_store)).
Proof.
  split.
  - refine (proj1 (proj1 (register_tool_spec ToolManager.__init__ []
                            (mock_tool definition_without_name "answer")) _)).
    left. reflexivity.
  - refine (proj1 (proj2 (proj2
              (proj2 (register_tool_spec ToolManager.__init__ []
                        (SearchTool (CourseSearchTool.__init__ mock_vector_store)))
                 "search_course_content" _ _)))).
    + reflexivity.
    + discriminate.
Defined.

(** C8.  For a name that is not registered, [execute_tool] returns the
    string "Tool 'name' not found", raises nothing and changes nothing;
    for a registered name it runs [execute] of the tool under that name on
    the keyword arguments and hands back what the tool returned (or
    raised), untouched, the tool staying under its name in the state
    [execute] left it in.  For the two tools of the module the result is
    that of [CourseSearchTool.execute] and of [CourseOutlineTool.execute]
    on the arguments the keywords carry. *)
Theorem execute_tool_dispatch :
  forall (self : ToolManager.t) (cs : list StoreCall) (tool_name : string)
         (kwargs : Kwargs),
    let before := {| obj := self; calls := cs |} in
    let out := ToolManager.execute_tool tool_name kwargs before in
    (dict_mem tool_name (ToolManager.tools self) = false ->
     out = (Return ("Tool '" ++ tool_name ++ "' not found"), before)) /\
    (forall tool,
       dict_get tool_name (ToolManager.tools self) = Some tool ->
       let ran := tool_execute kwargs {| obj := tool; calls := cs |} in
       fst out = fst ran /\
       dict_get tool_name (ToolManager.tools (obj (snd out))) =
         Some (obj (snd ran)) /\
       calls (snd out) = calls (snd ran)) /\
    (forall t query,
       dict_get tool_name (ToolManager.tools self) = Some (SearchTool t) ->
       kw_query kwargs = Some query ->
       fst out =
       fst (CourseSearchTool.execute query (kw_course_name kwargs)
              (kw_lesson_number kwargs) {| obj := t; calls := cs |})) /\
    (forall t course_name,
       dict_get tool_name (ToolManager.tools self) = Some (OutlineTool t) ->
       kwargs = {| kw_query := None; kw_course_name := Some course_name;
                   kw_lesson_number := None |} ->
       fst out =
       fst (CourseOutlineTool.execute course_name {| obj := t; calls := cs |})).
Proof.
  intros self cs tool_name kwargs before out.
  assert (Hrun : forall tool,
    dict_get tool_name (ToolManager.tools self) = Some tool ->
    out =
    (fst (tool_execute kwargs {| obj := tool; calls := cs |}),
     {| obj :=
          {| ToolManager.tools :=
               dict_set tool_name
                 (obj (snd (tool_execute kwargs {| obj := tool; calls := cs |})))
                 (ToolManager.tools self) |};
        calls := calls (snd (tool_execute kwargs {| obj := tool; calls := cs |})) |})).
  { intros tool Hget. unfold out, before.
    cbv beta iota zeta delta
      [ToolManager.execute_tool bind get_self raise ret obj calls].
    unfold dict_mem. rewrite Hget. cbn [negb].
    destruct (tool_execute kwargs {| obj := tool; calls := cs |}) as [r s'].
    reflexivity. }
  split; [|split; [|split]].
  - intros Hmem. unfold out, before.
    cbv beta iota zeta delta
      [ToolManager.execute_tool bind get_self raise ret obj calls].
    rewrite Hmem. reflexivity.
  - intros tool Hget ran. rewrite (Hrun tool Hget). fold ran.
    cbn [fst snd obj calls ToolManager.tools].
    repeat split. apply dict_get_set_same.
  - intros t query Hget Hq. rewrite (Hrun _ Hget). cbn [fst].
    unfold tool_execute, run_on. cbn [obj calls execute CourseSearchTool_Tool].
    unfold CourseSearchTool.call. rewrite Hq.
    destruct (CourseSearchTool.execute query (kw_course_name kwargs)
                (kw_lesson_number kwargs) {| obj := t; calls := cs |});
      reflexivity.
  - intros t course_name Hget ->. rewrite (Hrun _ Hget). cbn [fst].
    unfold tool_execute, run_on.
    cbn [obj calls execute CourseOutlineTool_Tool].
    unfold CourseOutlineTool.call.
    cbn [kw_query kw_course_name kw_lesson_number].
    destruct (CourseOutlineTool.execute course_name {| obj := t; calls := cs |});
      reflexivity.
Qed.

Lemma execute_tool_dispatch_witness :
  ToolManager.execute_tool "nonexistent_tool" (query_only "test")
    (fresh ToolManager.__init__) =
  (Return "Tool 'nonexistent_tool' not found", fresh ToolManager.__init__) /\
  fst (ToolManager.execute_tool "search_course_content" (query_only "test query")
         (fresh {| ToolManager.tools :=
                     [("search_course_content",
                       SearchTool (CourseSearchTool.__init__ mock_vector_store))] |})) =
  fst (tool_execute (query_only "test query")
         (fresh (SearchTool (CourseSearchTool.__init__ mock_vector_store)))).
Proof.
  split.
  - refine (proj1 (execute_tool_dispatch ToolManager.__init__ []
                     "nonexistent_tool" (query_only "test")) _).
    reflexivity.
  - refine (proj1 (proj1 (proj2 (execute_tool_dispatch
                     {| ToolManager.tools :=
                          [("search_course_content",
                            SearchTool (CourseSearchTool.__init__ mock_vector_store))] |}
                     [] "search_course_content" (query_only "test query")))
                     (SearchTool (CourseSearchTool.__init__ mock_vector_store)) _)).
    reflexivity.
Defined.

(** C9.  [reset_sources] leaves every registered tool that has
    [last_sources] with the empty list and every other tool as it was;
    running it a second time changes nothing more; and after it
    [get_last_sources] returns the empty list, from any state. *)
Theorem reset_sources_spec :
  forall (self : ToolManager.t) (cs : list StoreCall),
    let before := {| obj := self; calls := cs |} in
    let after := snd (ToolManager.reset_sources before) in
    fst (ToolManager.reset_sources before) = Return tt /\
    (forall tool_name tool,
       dict_get tool_name (ToolManager.tools self) = Some tool ->
       exists tool',
         dict_get tool_name (ToolManager.tools (obj after)) = Some tool' /\
         match tool_last_sources tool with
         | Some _ =>
             tool_last_sources tool' = Some [] /\
             tool' = tool_set_last_sources tool []
         | None => tool' = tool
         end) /\
    dict_keys (ToolManager.tools (obj after)) =
      dict_keys (ToolManager.tools self) /\
    ToolManager.reset_sources after = (Return tt, after) /\
    ToolManager.get_last_sources after = (Return [], after).
Proof.
  intros self cs before after. unfold after, before.
  cbv beta iota zeta delta
    [ToolManager.reset_sources ToolManager.get_last_sources bind get_self
     set_self ret obj calls].
  cbn [fst snd obj calls ToolManager.tools].
  split; [reflexivity|]. split; [|split; [|split]].
  - intros tool_name tool Hget.
    rewrite dict_get_map_values, Hget. cbn [option_map].
    eexists. split; [reflexivity|].
    pose proof (reset_tool_sources tool) as Hr.
    unfold ToolManager.reset_tool in *.
    destruct (tool_last_sources tool); [split; [exact Hr|reflexivity]|reflexivity].
  - unfold dict_keys. rewrite map_map. reflexivity.
  - do 3 f_equal. rewrite map_map. apply map_ext. intros [k tool]. cbn.
    now rewrite reset_tool_idempotent.
  - rewrite first_sources_reset. reflexivity.
Qed.

(** After one search through the manager, a reset leaves nothing to
    report (test_reset_sources). *)
Lemma reset_sources_spec_witness :
  let registered :=
    fresh {| ToolManager.tools :=
               [("search_course_content",
                 SearchTool (CourseSearchTool.__init__ mock_vector_store))] |} in
  let searched :=
    snd (ToolManager.execute_tool "search_course_content"
           (query_only "test query") registered) in
  let reset := snd (ToolManager.reset_sources searched) in
  List.length (ToolManager.first_sources
                 (dict_values (ToolManager.tools (obj searched)))) = 2%nat /\
  ToolManager.get_last_sources reset = (Return [], reset).
Proof.
  cbv zeta. split; [reflexivity|].
  exact (proj2 (proj2 (proj2 (proj2
    (reset_sources_spec
       (obj (snd (ToolManager.execute_tool "search_course_content"
                    (query_only "test query")
                    (fresh {| ToolManager.tools :=
                                [("search_course_content",
                                  SearchTool
                                    (CourseSearchTool.__init__ mock_vector_store))] |}))))
       (calls (snd (ToolManager.execute_tool "search_course_content"
                      (query_only "test query")
                      (fresh {| ToolManager.tools :=
                                  [("search_course_content",
                                    SearchTool
                                      (CourseSearchTool.__init__ mock_vector_store))] |}))))))))).
Defined.

(** ** Proofs: the registry as a whole *)

Section DictOrder.
Context {V : Type}.

Lemma dict_mem_keys (k : string) (d : dict V) :
  dict_mem k d = true <-> In k (dict_keys d).
Proof.
  unfold dict_mem. induction d as [|[k' v'] rest IH]; cbn.
  - split; [discriminate | contradiction].
  - destruct (String.eqb_spec k k') as [->|Hne].
    + split; auto.
    + rewrite IH. split; [auto | intros [H|H]; [congruence | exact H]].
Qed.

Lemma dict_keys_set (k : string) (v : V) (d : dict V) :
  dict_keys (dict_set k v d) =
  if dict_mem k d then dict_keys d else (dict_keys d ++ [k])%list.
Proof.
  unfold dict_mem. induction d as [|[k' v'] rest IH]; cbn; [reflexivity|].
  destruct (String.eqb k k'); cbn; [reflexivity|].
  fold (dict_keys (dict_set k v rest)). rewrite IH.
  destruct (dict_get k rest); reflexivity.
Qed.

Lemma dict_set_same_value (k : string) (v : V) (d : dict V) :
  dict_get k d = Some v -> dict_set k v d = d.
Proof.
  induction d as [|[k' v'] rest IH]; cbn; [discriminate|].
  destruct (String.eqb k k').
  - now intros [= ->].
  - intros H. now rewrite IH.
Qed.

Lemma dict_set_Forall (P : string * V -> Prop) (k : string) (v : V)
    (d : dict V) :
  Forall P d -> P (k, v) -> Forall P (dict_set k v d).
Proof.
  intros Hd Hkv. induction Hd as [|[k' v'] rest Hx Hrest IH]; cbn.
  - constructor; [exact Hkv | constructor].
  - destruct (String.eqb_spec k k') as [->|Hne].
    + constructor; assumption.
    + constructor; assumption.
Qed.

Lemma dict_get_Forall (P : string * V -> Prop) (k : string) (v : V)
    (d : dict V) :
  Forall P d -> dict_get k d = Some v -> P (k, v).
Proof.
  induction 1 as [|[k' v'] rest Hx _ IH]; cbn; [discriminate|].
  destruct (String.eqb_spec k k') as [->|Hne]; [|exact IH].
  now intros [= <-].
Qed.

Lemma dict_set_NoDup (k : string) (v : V) (d : dict V) :
  NoDup (dict_keys d) -> NoDup (dict_keys (dict_set k v d)).
Proof.
  intros Hd. rewrite dict_keys_set.
  destruct (dict_mem k d) eqn:Hmem; [exact Hd|].
  apply NoDup_app; [exact Hd | repeat constructor; intros [] | ].
  intros x Hx [<-|[]]. apply dict_mem_keys in Hx. congruence.
Qed.
End DictOrder.

(** Running a tool changes neither its definition nor what kind of tool
    it is. *)
Lemma tool_execute_keeps_definition (kwargs : Kwargs) (tool : Tool)
    (cs : list StoreCall) :
  tool_get_tool_definition
    (obj (snd (tool_execute kwargs {| obj := tool; calls := cs |}))) =
  tool_get_tool_definition tool.
Proof.
  unfold tool_execute, run_on. cbn [obj calls].
  destruct tool as [t|t|t].
  - destruct (execute kwargs {| obj := t; calls := cs |}); reflexivity.
  - destruct (execute kwargs {| obj := t; calls := cs |}); reflexivity.
  - cbn [execute OtherTool_Tool]. unfold OtherTool.execute. cbn [obj calls].
    destruct (OtherTool.run t kwargs (OtherTool.last_sources t)); reflexivity.
Qed.

Lemma reset_tool_keeps_definition (tool : Tool) :
  tool_get_tool_definition (ToolManager.reset_tool tool) =
  tool_get_tool_definition tool.
Proof.
  unfold ToolManager.reset_tool.
  destruct tool as [t|t|t]; cbn; [reflexivity|reflexivity|].
  destruct (OtherTool.last_sources t); reflexivity.
Qed.

(** What [execute_tool] leaves behind for a registered name. *)
Lemma execute_tool_registered (self : ToolManager.t) (cs : list StoreCall)
    (tool_name : string) (kwargs : Kwargs) (tool : Tool) :
  dict_get tool_name (ToolManager.tools self) = Some tool ->
  ToolManager.execute_tool tool_name kwargs {| obj := self; calls := cs |} =
  (fst (tool_execute kwargs {| obj := tool; calls := cs |}),
   {| obj :=
        {| ToolManager.tools :=
             dict_set tool_name
               (obj (snd (tool_execute kwargs {| obj := tool; calls := cs |})))
               (ToolManager.tools self) |};
      calls := calls (snd (tool_execute kwargs {| obj := tool; calls := cs |})) |}).
Proof.
  intros Hget.
  cbv beta iota zeta delta
    [ToolManager.execute_tool bind get_self raise ret obj calls].
  unfold dict_mem. rewrite Hget. cbn [negb].
  destruct (tool_execute kwargs {| obj := tool; calls := cs |}) as [r s'].
  reflexivity.
Qed.

Lemma execute_tool_unregistered (self : ToolManager.t) (cs : list StoreCall)
    (tool_name : string) (kwargs : Kwargs) :
  dict_get tool_name (ToolManager.tools self) = None ->
  ToolManager.execute_tool tool_name kwargs {| obj := self; calls := cs |} =
  (Return ("Tool '" ++ tool_name ++ "' not found"),
   {| obj := self; calls := cs |}).
Proof.
  intros Hget.
  cbv beta iota zeta delta
    [ToolManager.execute_tool bind get_self raise ret obj calls].
  unfold dict_mem. rewrite Hget. reflexivity.
Qed.

(** What [register_tool] does, by the name of the definition. *)
Lemma register_tool_cases (self : ToolManager.t) (cs : list StoreCall)
    (tool : Tool) :
  ToolManager.register_tool tool {| obj := self; calls := cs |} =
  if truthy_opt_str (name (tool_get_tool_definition tool)) then
    (Return tt,
     {| obj :=
          {| ToolManager.tools :=
               dict_set (str_of_opt_str (name (tool_get_tool_definition tool)))
                 tool (ToolManager.tools self) |};
        calls := cs |})
  else
    (Raise (ValueError "Tool must have a 'name' in its definition"),
     {| obj := self; calls := cs |}).
Proof.
  cbv beta iota zeta delta
    [ToolManager.register_tool bind get_self set_self raise ret obj calls].
  destruct (name (tool_get_tool_definition tool)) as [n|]; cbn; [|reflexivity].
  destruct (truthy_str n); reflexivity.
Qed.


Lemma first_sources_quiet (values : list Tool) :
  ToolManager.first_sources values = [] <-> Forall quiet values.
Proof.
  induction values as [|tool rest IH]; cbn.
  - split; [constructor | reflexivity].
  - destruct (tool_last_sources tool) as [[|src more]|] eqn:E.
    + rewrite IH. split.
      * intros H. constructor; [right; exact E | exact H].
      * intros H. now inversion H.
    + split; [discriminate|].
      intros H. inversion H as [|? ? [Hq|Hq] _]; congruence.
    + rewrite IH. split.
      * intros H. constructor; [left; exact E | exact H].
      * intros H. now inversion H.
Qed.

Lemma first_sources_found (values : list Tool) :
  ToolManager.first_sources values <> [] ->
  exists before tool after,
    values = (before ++ tool :: after)%list /\
    Forall quiet before /\
    tool_last_sources tool = Some (ToolManager.first_sources values).
Proof.
  induction values as [|tool rest IH]; cbn; [congruence|].
  destruct (tool_last_sources tool) as [[|src more]|] eqn:E.
  - intros H. destruct (IH H) as (before & found & after & -> & Hq & Hs).
    exists (tool :: before), found, after.
    repeat split; [constructor; [right; exact E | exact Hq] | exact Hs].
  - intros _. exists [], tool, rest. repeat split; [constructor | exact E].
  - intros H. destruct (IH H) as (before & found & after & -> & Hq & Hs).
    exists (tool :: before), found, after.
    repeat split; [constructor; [left; exact E | exact Hq] | exact Hs].
Qed.

(** Among tools that are all quiet but the one under [k], the scan finds
    what that one holds. *)
Lemma first_sources_set (k : string) (v : Tool) (d : dict Tool) :
  NoDup (dict_keys d) ->
  dict_mem k d = true ->
  Forall (fun kv => fst kv = k \/ quiet (snd kv)) d ->
  ToolManager.first_sources (dict_values (dict_set k v d)) =
  match tool_last_sources v with Some l => l | None => [] end.
Proof.
  unfold dict_mem.
  induction d as [|[k' v'] rest IH]; cbn; [discriminate|].
  intros Hnd Hmem Hall.
  inversion Hnd as [|? ? Hnotin Hnd']; subst.
  inversion Hall as [|? ? Hhead Hrest]; subst. cbn [fst snd] in Hhead.
  destruct (String.eqb_spec k k') as [->|Hne]; cbn.
  - assert (Hq : Forall quiet (dict_values rest)).
    { unfold dict_values. apply Forall_map.
      apply Forall_forall. intros [k0 v0] Hin.
      rewrite Forall_forall in Hrest. destruct (Hrest _ Hin) as [Hk|Hk];
        [|exact Hk].
      cbn in Hk. subst k0. exfalso. apply Hnotin.
      apply in_map_iff. exists (k', v0). auto. }
    apply first_sources_quiet in Hq. fold (dict_values rest). rewrite Hq.
    destruct (tool_last_sources v) as [[|]|]; reflexivity.
  - fold (dict_values (dict_set k v rest)).
    rewrite (IH Hnd' Hmem Hrest).
    destruct Hhead as [Hk|[Hq|Hq]]; [congruence | |]; rewrite Hq; reflexivity.
Qed.

(** X1.  The registry stays well formed: it starts so, and [register_tool]
    (whether it stores or raises), [execute_tool] and [reset_sources] keep
    the names distinct and every tool under the non-empty name of its own
    definition. *)
Theorem registry_wf_preserved :
  forall (self : ToolManager.t) (cs : list StoreCall),
    registry_wf (ToolManager.tools self) ->
    let before := {| obj := self; calls := cs |} in
    registry_wf (ToolManager.tools ToolManager.__init__) /\
    (forall tool,
       registry_wf
         (ToolManager.tools (obj (snd (ToolManager.register_tool tool before))))) /\
    (forall tool_name kwargs,
       registry_wf
         (ToolManager.tools
            (obj (snd (ToolManager.execute_tool tool_name kwargs before))))) /\
    registry_wf
      (ToolManager.tools (obj (snd (ToolManager.reset_sources before)))).
Proof.
  intros self cs [Hnd Hall] before. unfold before.
  split; [split; constructor|]. split; [|split].
  - intros tool. rewrite register_tool_cases.
    destruct (name (tool_get_tool_definition tool)) as [n|] eqn:Hn;
      cbn [truthy_opt_str str_of_opt_str]; [|split; assumption].
    destruct (truthy_str n) eqn:Ht; cbn [snd obj ToolManager.tools];
      [|split; assumption].
    split; [now apply dict_set_NoDup|].
    apply dict_set_Forall; [exact Hall|]. cbn [fst snd].
    split; [exact Hn | now apply truthy_str_true].
  - intros tool_name kwargs.
    destruct (dict_get tool_name (ToolManager.tools self)) as [tool|] eqn:Hget.
    + rewrite (execute_tool_registered _ _ _ _ _ Hget).
      cbn [snd obj ToolManager.tools].
      split; [now apply dict_set_NoDup|].
      apply dict_set_Forall; [exact Hall|]. cbn [fst snd].
      rewrite tool_execute_keeps_definition.
      exact (dict_get_Forall _ _ _ _ Hall Hget).
    + rewrite (execute_tool_unregistered _ _ _ _ Hget). split; assumption.
  - cbv beta iota zeta delta
      [ToolManager.reset_sources bind get_self set_self ret obj calls].
    cbn [snd obj ToolManager.tools]. split.
    + unfold dict_keys. rewrite map_map. exact Hnd.
    + apply Forall_map. revert Hall. apply Forall_impl. intros [k tool].
      cbn [fst snd]. now rewrite reset_tool_keeps_definition.
Qed.

Lemma registry_wf_preserved_witness :
  registry_wf
    (ToolManager.tools
       (obj (snd (ToolManager.execute_tool "search_course_content"
                    (query_only "test query") (fresh two_tools_registry))))).
Proof.
  refine (proj1 (proj2 (proj2 (registry_wf_preserved two_tools_registry [] _)))
            "search_course_content" (query_only "test query")).
  split.
  - repeat constructor; cbn; intuition discriminate.
  - repeat constructor; discriminate.
Defined.

Lemma map_Some_NoDup {A : Type} (l : list A) :
  NoDup l -> NoDup (map Some l).
Proof.
  induction 1 as [|x l Hx _ IH]; cbn; constructor; [|exact IH].
  intros Hin. apply in_map_iff in Hin. destruct Hin as (y & [= ->] & Hy).
  contradiction.
Qed.

(** X2.  On a well-formed registry [get_tool_definitions] lists one
    definition per registered tool, in registration order; their names
    are the registered names, so no two definitions share a name; and the
    call changes nothing. *)
Theorem get_tool_definitions_names :
  forall (self : ToolManager.t) (cs : list StoreCall),
    registry_wf (ToolManager.tools self) ->
    let before := {| obj := self; calls := cs |} in
    exists defs,
      ToolManager.get_tool_definitions before = (Return defs, before) /\
      List.length defs = List.length (ToolManager.tools self) /\
      map name defs = map Some (dict_keys (ToolManager.tools self)) /\
      NoDup (map name defs).
Proof.
  intros self cs [Hnd Hall] before.
  exists (map tool_get_tool_definition (dict_values (ToolManager.tools self))).
  assert (Hnames :
    map name (map tool_get_tool_definition (dict_values (ToolManager.tools self))) =
    map Some (dict_keys (ToolManager.tools self))).
  { unfold dict_values, dict_keys. rewrite !map_map.
    apply map_ext_in. intros kv Hin.
    rewrite Forall_forall in Hall. exact (proj1 (Hall kv Hin)). }
  split; [reflexivity|]. split; [|split].
  - unfold dict_values. now rewrite !length_map.
  - exact Hnames.
  - rewrite Hnames. now apply map_Some_NoDup.
Qed.

Lemma get_tool_definitions_names_witness :
  exists defs,
    ToolManager.get_tool_definitions (fresh two_tools_registry) =
      (Return defs, fresh two_tools_registry) /\
    List.length defs = 2%nat /\
    map name defs = [Some "search_course_content"; Some "get_course_outline"] /\
    NoDup (map name defs).
Proof.
  refine (get_tool_definitions_names two_tools_registry [] _).
  split.
  - repeat constructor; cbn; intuition discriminate.
  - repeat constructor; discriminate.
Defined.



(** X4.  A tool that was just registered is the one [execute_tool] runs
    under the name of its definition: the call returns what the tool's own
    [execute] returns on the same keyword arguments. *)
Theorem register_then_execute_tool :
  forall (self : ToolManager.t) (cs : list StoreCall) (tool : Tool)
         (n : string) (kwargs : Kwargs),
    name (tool_get_tool_definition tool) = Some n ->
    n <> EmptyString ->
    let registered :=
      snd (ToolManager.register_tool tool {| obj := self; calls := cs |}) in
    fst (ToolManager.execute_tool n kwargs registered) =
    fst (tool_execute kwargs {| obj := tool; calls := cs |}).
Proof.
  intros self cs tool n kwargs Hn Hne registered. unfold registered.
  rewrite register_tool_cases, Hn. cbn [truthy_opt_str str_of_opt_str].
  apply truthy_str_true in Hne. rewrite Hne. cbn [snd].
  rewrite (execute_tool_registered _ _ _ _ tool); [reflexivity|].
  apply dict_get_set_same.
Qed.

Lemma register_then_execute_tool_witness :
  fst (ToolManager.execute_tool "get_course_outline"
         {| kw_query := None; kw_course_name := Some "Advanced Retrieval";
            kw_lesson_number := None |}
         (snd (ToolManager.register_tool
                 (OutlineTool (CourseOutlineTool.__init__ mock_vector_store))
                 (fresh ToolManager.__init__)))) =
  fst (tool_execute
         {| kw_query := None; kw_course_name := Some "Advanced Retrieval";
            kw_lesson_number := None |}
         (fresh (OutlineTool (CourseOutlineTool.__init__ mock_vector_store)))).
Proof.
  apply (register_then_execute_tool ToolManager.__init__ []
           (OutlineTool (CourseOutlineTool.__init__ mock_vector_store))
           "get_course_outline").
  - reflexivity.
  - discriminate.
Defined.

(** X5.  [execute_tool] touches no tool but the one it runs: the
    registered names and their order stay, and every other name keeps its
    tool as it was. *)
Theorem execute_tool_frame :
  forall (self : ToolManager.t) (cs : list StoreCall) (tool_name : string)
         (kwargs : Kwargs),
    let after :=
      ToolManager.tools
        (obj (snd (ToolManager.execute_tool tool_name kwargs
                     {| obj := self; calls := cs |}))) in
    dict_keys after = dict_keys (ToolManager.tools self) /\
    (forall k, k <> tool_name ->
       dict_get k after = dict_get k (ToolManager.tools self)).
Proof.
  intros self cs tool_name kwargs after. unfold after.
  destruct (dict_get tool_name (ToolManager.tools self)) as [tool|] eqn:Hget.
  - rewrite (execute_tool_registered _ _ _ _ _ Hget).
    cbn [snd obj ToolManager.tools]. split.
    + rewrite dict_keys_set. unfold dict_mem. now rewrite Hget.
    + intros k Hk. now apply dict_get_set_other.
  - rewrite (execute_tool_unregistered _ _ _ _ Hget). split; reflexivity.
Qed.

(** X6.  [get_last_sources] changes nothing and returns the sources of
    the first registered tool, in registration order, that has a non-empty
    [last_sources]; it returns the empty list exactly when no registered
    tool has one. *)
Theorem get_last_sources_first_wins :
  forall (self : ToolManager.t) (cs : list StoreCall),
    let before := {| obj := self; calls := cs |} in
    exists sources,
      ToolManager.get_last_sources before = (Return sources, before) /\
      (sources = [] <-> Forall quiet (dict_values (ToolManager.tools self))) /\
      (sources <> [] ->
       exists earlier tool later,
         dict_values (ToolManager.tools self) =
           (earlier ++ tool :: later)%list /\
         Forall quiet earlier /\
         tool_last_sources tool = Some sources).
Proof.
  intros self cs before.
  exists (ToolManager.first_sources (dict_values (ToolManager.tools self))).
  split; [reflexivity|]. split.
  - apply first_sources_quiet.
  - apply first_sources_found.
Qed.

(** Running a registered search tool is running [CourseSearchTool.execute]
    on the arguments the keywords carry. *)
Lemma search_tool_execute (kwargs : Kwargs) (t : CourseSearchTool.t)
    (cs : list StoreCall) (query : string) :
  kw_query kwargs = Some query ->
  let ran :=
    CourseSearchTool.execute query (kw_course_name kwargs)
      (kw_lesson_number kwargs) {| obj := t; calls := cs |} in
  tool_execute kwargs {| obj := SearchTool t; calls := cs |} =
  (fst ran, {| obj := SearchTool (obj (snd ran)); calls := calls (snd ran) |}).
Proof.
  intros Hq ran. unfold tool_execute, run_on.
  cbn [obj calls execute CourseSearchTool_Tool].
  unfold CourseSearchTool.call. rewrite Hq. fold ran.
  destruct ran; reflexivity.
Qed.

(** X7.  When every other registered tool is quiet, a search run through
    [execute_tool] that finds documents makes [get_last_sources] return the
    provenance of exactly that search: one record per (document, metadata)
    pair, whatever the search tool held before. *)
Theorem search_then_get_last_sources :
  forall (self : ToolManager.t) (cs : list StoreCall) (tool_name : string)
         (t : CourseSearchTool.t) (kwargs : Kwargs) (query : string)
         (results : SearchResults),
    NoDup (dict_keys (ToolManager.tools self)) ->
    dict_get tool_name (ToolManager.tools self) = Some (SearchTool t) ->
    Forall (fun kv => fst kv = tool_name \/ quiet (snd kv))
      (ToolManager.tools self) ->
    kw_query kwargs = Some query ->
    search (CourseSearchTool.store t) query (kw_course_name kwargs)
      (kw_lesson_number kwargs) = results ->
    truthy_opt_str (error results) = false ->
    documents results <> [] ->
    fst (ToolManager.get_last_sources
           (snd (ToolManager.execute_tool tool_name kwargs
                   {| obj := self; calls := cs |}))) =
    Return (map (spec_source (CourseSearchTool.store t))
              (combine (documents results) (metadata results))).
Proof.
  intros self cs tool_name t kwargs query results Hnd Hget Hall Hq Hsearch
         Herr Hdocs.
  rewrite (execute_tool_registered _ _ _ _ _ Hget).
  rewrite (search_tool_execute _ _ _ _ Hq). cbv zeta.
  rewrite execute_cases. cbv zeta. rewrite Hsearch, Herr.
  unfold is_empty. destruct (documents results) as [|d ds] eqn:Hd;
    [contradiction|]. rewrite <- Hd.
  cbv beta iota zeta delta [ToolManager.get_last_sources bind get_self ret].
  cbn [fst snd obj calls ToolManager.tools].
  rewrite first_sources_set; [reflexivity | exact Hnd | | exact Hall].
  unfold dict_mem. now rewrite Hget.
Qed.

Lemma search_then_get_last_sources_witness :
  fst (ToolManager.get_last_sources
         (snd (ToolManager.execute_tool "search_course_content"
                 (query_only "test query") (fresh two_tools_registry)))) =
  Return
    [ {| text := "Advanced Retrieval for AI with Chroma - Lesson 1";
         url := Some "https://example.com/lesson1" |};
      {| text := "Advanced Retrieval for AI with Chroma - Lesson 2";
         url := Some "https://example.com/lesson1" |} ].
Proof.
  apply (search_then_get_last_sources two_tools_registry []
           "search_course_content"
           (CourseSearchTool.__init__ mock_vector_store)
           (query_only "test query") "test query" sample_search_results).
  - repeat constructor; cbn; intuition discriminate.
  - reflexivity.
  - constructor; [left; reflexivity|].
    constructor; [right; left; reflexivity | constructor].
  - reflexivity.
  - reflexivity.
  - reflexivity.
  - simpl. discriminate.
Defined.

(** X8.  A search run through [execute_tool] that ends in the error of
    the store or finds no document leaves the whole registry as it was,
    so [get_last_sources] still returns what it returned before the call;
    the only trace of the call is the one query recorded at the store. *)
Theorem failed_search_keeps_registry :
  forall (self : ToolManager.t) (cs : list StoreCall) (tool_name : string)
         (t : CourseSearchTool.t) (kwargs : Kwargs) (query : string)
         (results : SearchResults),
    dict_get tool_name (ToolManager.tools self) = Some (SearchTool t) ->
    kw_query kwargs = Some query ->
    search (CourseSearchTool.store t) query (kw_course_name kwargs)
      (kw_lesson_number kwargs) = results ->
    truthy_opt_str (error results) = true \/ documents results = [] ->
    let after :=
      snd (ToolManager.execute_tool tool_name kwargs
             {| obj := self; calls := cs |}) in
    after =
      {| obj := self;
         calls :=
           (cs ++ [call_search query (kw_course_name kwargs)
                     (kw_lesson_number kwargs)])%list |} /\
    fst (ToolManager.get_last_sources after) =
    fst (ToolManager.get_last_sources {| obj := self; calls := cs |}).
Proof.
  intros self cs tool_name t kwargs query results Hget Hq Hsearch Hfail after.
  assert (Hafter :
    after =
    {| obj := self;
       calls :=
         (cs ++ [call_search query (kw_course_name kwargs)
                   (kw_lesson_number kwargs)])%list |}).
  { unfold after.
    rewrite (execute_tool_registered _ _ _ _ _ Hget).
    rewrite (search_tool_execute _ _ _ _ Hq). cbv zeta.
    rewrite execute_cases. cbv zeta. rewrite Hsearch.
    assert (Hsame :
      dict_set tool_name (SearchTool t) (ToolManager.tools self) =
      ToolManager.tools self) by now apply dict_set_same_value.
    unfold is_empty.
    destruct Hfail as [Herr|Hdocs].
    - rewrite Herr. cbn [fst snd obj calls]. rewrite Hsame.
      destruct self; reflexivity.
    - rewrite Hdocs. destruct (truthy_opt_str (error results));
        cbn [fst snd obj calls]; rewrite Hsame; destruct self; reflexivity. }
  split; [exact Hafter|]. rewrite Hafter. reflexivity.
Qed.

Lemma failed_search_keeps_registry_witness :
  let registry :=
    {| ToolManager.tools :=
         [("search_course_content",
           SearchTool
             {| CourseSearchTool.store :=
                  mock_store (error_search_results "Test search error")
                    None [] None;
                CourseSearchTool.last_sources :=
                  [ {| text := "Test Course - Lesson 1"; url := None |} ] |})] |} in
  fst (ToolManager.get_last_sources
         (snd (ToolManager.execute_tool "search_course_content"
                 (query_only "again") (fresh registry)))) =
  Return [ {| text := "Test Course - Lesson 1"; url := None |} ].
Proof.
  cbv zeta.
  refine (proj2 (failed_search_keeps_registry _ [] "search_course_content" _
                   (query_only "again") "again"
                   (error_search_results "Test search error") _ _ _ _)).
  - reflexivity.
  - reflexivity.
  - reflexivity.
  - left. reflexivity.
Defined.

(** X9.  The two tools of the module register side by side, in either
    order and into any registry: both calls return normally, and afterwards
    each of the two names leads to its own tool. *)
Theorem register_both_tools :
  forall (self : ToolManager.t) (cs : list StoreCall)
         (s : CourseSearchTool.t) (o : CourseOutlineTool.t),
    let before := {| obj := self; calls := cs |} in
    let search_first := ToolManager.register_tool (SearchTool s) before in
    let then_outline :=
      ToolManager.register_tool (OutlineTool o) (snd search_first) in
    let outline_first := ToolManager.register_tool (OutlineTool o) before in
    let then_search :=
      ToolManager.register_tool (SearchTool s) (snd outline_first) in
    fst search_first = Return tt /\ fst then_outline = Return tt /\
    fst outline_first = Return tt /\ fst then_search = Return tt /\
    (forall tools,
       tools = ToolManager.tools (obj (snd then_outline)) \/
       tools = ToolManager.tools (obj (snd then_search)) ->
       dict_get "search_course_content" tools = Some (SearchTool s) /\
       dict_get "get_course_outline" tools = Some (OutlineTool o)).
Proof.
  intros self cs s o before search_first then_outline outline_first then_search.
  unfold then_outline, then_search, search_first, outline_first, before.
  rewrite !register_tool_cases.
  cbn [truthy_opt_str truthy_str str_of_opt_str name tool_get_tool_definition
       get_tool_definition CourseSearchTool_Tool CourseOutlineTool_Tool
       CourseSearchTool.get_tool_definition
       CourseOutlineTool.get_tool_definition fst snd obj calls].
  rewrite !register_tool_cases.
  cbn [truthy_opt_str truthy_str str_of_opt_str name tool_get_tool_definition
       get_tool_definition CourseSearchTool_Tool CourseOutlineTool_Tool
       CourseSearchTool.get_tool_definition
       CourseOutlineTool.get_tool_definition fst snd obj calls
       ToolManager.tools].
  do 4 (split; [reflexivity|]).
  intros tools [-> | ->]; split;
    first [ apply dict_get_set_same
          | rewrite dict_get_set_other;
            [apply dict_get_set_same | discriminate] ].
Qed.

(** ** Proofs: the tools beyond their answers *)

(** [_format_results] on any result and any state. *)
Lemma format_results_spec (results : SearchResults) (self : CourseSearchTool.t)
    (cs : list StoreCall) :
  let pairs := combine (documents results) (metadata results) in
  CourseSearchTool._format_results results {| obj := self; calls := cs |} =
  (Return (spec_search_output pairs),
   {| obj :=
        {| CourseSearchTool.store := CourseSearchTool.store self;
           CourseSearchTool.last_sources :=
             map (spec_source (CourseSearchTool.store self)) pairs |};
      calls := (cs ++ spec_link_calls pairs)%list |}).
Proof.
  intros pairs.
  unfold CourseSearchTool._format_results, bind, get_self, set_self, ret.
  cbn [obj calls]. rewrite format_loop_spec. reflexivity.
Qed.

Lemma spec_link_calls_are_link_calls (pairs : list (string * Metadata)) :
  Forall is_link_call (spec_link_calls pairs) /\
  (List.length (spec_link_calls pairs) <= List.length pairs)%nat.
Proof.
  induction pairs as [|[doc meta] rest [IHf IHl]]; cbn.
  - split; [constructor | apply le_n].
  - destruct (meta_lesson_number meta); cbn.
    + split; [constructor; [exact I | exact IHf] | now apply le_n_S].
    + split; [exact IHf | now apply le_S].
Qed.

(** An output with at least one entry opens with the bracket of the first
    header. *)
Lemma spec_search_output_bracket (pairs : list (string * Metadata)) :
  pairs <> [] -> exists rest, spec_search_output pairs = "[" ++ rest.
Proof.
  destruct pairs as [|p [|p' more]]; [congruence| |]; intros _;
    unfold spec_search_output, join; cbn [map String.concat];
    unfold spec_entry at 1; cbn [String.append]; eexists; reflexivity.
Qed.

(** X10.  [_format_results] pairs documents with metadata as [zip] does:
    it formats and tracks as many entries as the shorter of the two lists
    has, keeps the store, and when either list is empty it returns the
    empty string, sets [last_sources] to the empty list and asks the store
    nothing. *)
Theorem format_results_zip :
  forall (results : SearchResults) (self : CourseSearchTool.t)
         (cs : list StoreCall),
    let out :=
      CourseSearchTool._format_results results {| obj := self; calls := cs |} in
    List.length (CourseSearchTool.last_sources (obj (snd out))) =
      Nat.min (List.length (documents results))
              (List.length (metadata results)) /\
    CourseSearchTool.store (obj (snd out)) = CourseSearchTool.store self /\
    (documents results = [] \/ metadata results = [] ->
     out =
     (Return EmptyString,
      {| obj := {| CourseSearchTool.store := CourseSearchTool.store self;
                   CourseSearchTool.last_sources := [] |};
         calls := cs |})).
Proof.
  intros results self cs out. unfold out. rewrite format_results_spec.
  cbv zeta. cbn [snd obj CourseSearchTool.last_sources CourseSearchTool.store].
  split; [now rewrite length_map, length_combine|]. split; [reflexivity|].
  intros [H|H]; rewrite H; [|rewrite combine_nil]; cbn;
    now rewrite app_nil_r.
Qed.

(** A document that comes without metadata is dropped: the answer is
    empty and the sources are wiped. *)
Lemma format_results_zip_witness :
  CourseSearchTool._format_results document_without_metadata
    (fresh {| CourseSearchTool.store := mock_vector_store;
              CourseSearchTool.last_sources :=
                [ {| text := "Test Course"; url := None |} ] |}) =
  (Return EmptyString, fresh (CourseSearchTool.__init__ mock_vector_store)).
Proof.
  refine (proj2 (proj2 (format_results_zip document_without_metadata _ [])) _).
  right. reflexivity.
Defined.

(** X11.  On every path [CourseSearchTool.execute] keeps its store and
    asks it first for the search, once, with the arguments it was given,
    and after that only for lesson links, at most one per (document,
    metadata) pair; when the search ends in an error or finds no document
    the search is the only call. *)
Theorem search_execute_store_calls :
  forall (self : CourseSearchTool.t) (cs : list StoreCall) (query : string)
         (course_name : option string) (lesson_number : option Z),
    let results :=
      search (CourseSearchTool.store self) query course_name lesson_number in
    let out :=
      CourseSearchTool.execute query course_name lesson_number
        {| obj := self; calls := cs |} in
    CourseSearchTool.store (obj (snd out)) = CourseSearchTool.store self /\
    exists link_calls,
      calls (snd out) =
        (cs ++ call_search query course_name lesson_number :: link_calls)%list /\
      Forall is_link_call link_calls /\
      (List.length link_calls <=
         Nat.min (List.length (documents results))
                 (List.length (metadata results)))%nat /\
      (truthy_opt_str (error results) = true \/ documents results = [] ->
       link_calls = []).
Proof.
  intros self cs query course_name lesson_number results out.
  unfold out. rewrite execute_cases. cbv zeta. fold results. unfold is_empty.
  destruct (truthy_opt_str (error results)).
  - split; [reflexivity|]. exists []. cbn [snd calls].
    repeat split; [constructor | apply Nat.le_0_l].
  - destruct (documents results) as [|d ds] eqn:Hd.
    + split; [reflexivity|]. exists []. cbn [snd calls].
      repeat split; [constructor | apply Nat.le_0_l].
    + split; [reflexivity|].
      exists (spec_link_calls (combine (d :: ds) (metadata results))).
      cbn [snd calls].
      destruct (spec_link_calls_are_link_calls
                  (combine (d :: ds) (metadata results))) as [Hf Hl].
      rewrite length_combine in Hl.
      repeat split; [now rewrite <- app_assoc | exact Hf | exact Hl |].
      intros [H|H]; discriminate H.
Qed.

(** X12.  What [CourseSearchTool.execute] answers and asks of the store
    does not depend on the [last_sources] the tool holds, and when the
    search formats a result the tool ends in the same state whatever it
    held: old provenance never leaks into a new answer. *)
Theorem search_execute_ignores_last_sources :
  forall (st : VectorStore) (held held' : list Source) (cs : list StoreCall)
         (query : string) (course_name : option string)
         (lesson_number : option Z),
    let run held :=
      CourseSearchTool.execute query course_name lesson_number
        {| obj := {| CourseSearchTool.store := st;
                     CourseSearchTool.last_sources := held |};
           calls := cs |} in
    let results := search st query course_name lesson_number in
    fst (run held) = fst (run held') /\
    calls (snd (run held)) = calls (snd (run held')) /\
    (truthy_opt_str (error results) = false -> documents results <> [] ->
     snd (run held) = snd (run held')).
Proof.
  intros st held held' cs query course_name lesson_number run results.
  unfold run. rewrite !execute_cases. cbv zeta.
  cbn [CourseSearchTool.store]. fold results. unfold is_empty.
  destruct (truthy_opt_str (error results)); [repeat split; discriminate|].
  destruct (documents results) as [|d ds]; repeat split; congruence.
Qed.

Lemma search_execute_ignores_last_sources_witness :
  snd (CourseSearchTool.execute "test query" None None
         (fresh {| CourseSearchTool.store := mock_vector_store;
                   CourseSearchTool.last_sources :=
                     [ {| text := "Test Course"; url := None |} ] |})) =
  snd (CourseSearchTool.execute "test query" None None
         (fresh (CourseSearchTool.__init__ mock_vector_store))).
Proof.
  refine (proj2 (proj2 (search_execute_ignores_last_sources mock_vector_store
                          [ {| text := "Test Course"; url := None |} ] []
                          [] "test query" None None)) _ _).
  - reflexivity.
  - simpl. discriminate.
Defined.

(** X13.  Every answer of [CourseSearchTool.execute] is of one of four
    kinds, told apart by the result of the store: its non-empty error
    itself; the sentence "No relevant content found ... ."; a text that
    opens with the bracket of a header, when there is a (document,
    metadata) pair; or the empty string, when documents came without
    metadata.  The call never raises. *)
Theorem search_execute_classified :
  forall (self : CourseSearchTool.t) (cs : list StoreCall) (query : string)
         (course_name : option string) (lesson_number : option Z),
    let results :=
      search (CourseSearchTool.store self) query course_name lesson_number in
    let answer :=
      fst (CourseSearchTool.execute query course_name lesson_number
             {| obj := self; calls := cs |}) in
    (exists e, error results = Some e /\ e <> EmptyString /\
               answer = Return e) \/
    (truthy_opt_str (error results) = false /\ documents results = [] /\
     exists filter_info,
       answer = Return ("No relevant content found" ++ filter_info ++ ".")) \/
    (truthy_opt_str (error results) = false /\
     combine (documents results) (metadata results) <> [] /\
     exists rest, answer = Return ("[" ++ rest)) \/
    (truthy_opt_str (error results) = false /\
     documents results <> [] /\ metadata results = [] /\
     answer = Return EmptyString).
Proof.
  intros self cs query course_name lesson_number results answer.
  unfold answer. rewrite execute_cases. cbv zeta. fold results.
  unfold is_empty.
  destruct (error results) as [e|] eqn:He; cbn [truthy_opt_str get_default].
  1: destruct (truthy_str e) eqn:Ht;
       [left; exists e; repeat split; now apply truthy_str_true|].
  all: right;
    (destruct (documents results) as [|d ds] eqn:Hd;
     [ left; repeat split; cbn [fst];
       eexists (_ ++ _); rewrite str_app_assoc; reflexivity
     | right;
       destruct (metadata results) as [|m ms] eqn:Hm;
       [ right; repeat split; discriminate
       | left; repeat split; [discriminate|];
         destruct (spec_search_output_bracket (combine (d :: ds) (m :: ms)))
           as [rest Hrest]; [discriminate|];
         exists rest; cbn [fst]; now rewrite Hrest ] ]).
Qed.

Lemma find_matching_course_selects (all_courses : list CourseMeta)
    (resolved : string) (m : CourseMeta) :
  CourseOutlineTool.find_matching_course all_courses resolved = Some m ->
  selected_by all_courses resolved m.
Proof.
  induction all_courses as [|m' rest IH]; cbn; [discriminate|].
  destruct (CourseOutlineTool.title_is m' resolved) eqn:E.
  - intros [= ->]. apply title_is_true in E.
    exists [], rest. repeat split; [exact E | constructor].
  - intros H. destruct (IH H) as (before & after & -> & Ht & Hb).
    exists (m' :: before), after. repeat split; [exact Ht|].
    constructor; [|exact Hb].
    intros Hm'. apply title_is_true in Hm'. congruence.
Qed.

Lemma find_matching_course_misses (all_courses : list CourseMeta)
    (resolved : string) :
  CourseOutlineTool.find_matching_course all_courses resolved = None ->
  no_entry_titled all_courses resolved.
Proof.
  induction all_courses as [|m' rest IH]; cbn; [constructor|].
  destruct (CourseOutlineTool.title_is m' resolved) eqn:E; [discriminate|].
  intros H. constructor; [|exact (IH H)].
  intros Hm'. apply title_is_true in Hm'. congruence.
Qed.

(** An outline opens with the course line. *)
Lemma spec_outline_opens (m : CourseMeta) :
  exists rest, spec_outline m = spec_course_line m ++ rest.
Proof.
  unfold spec_outline, spec_outline_lines, join.
  destruct (optional_line "**Course Link:** " (course_link m) ++
            optional_line "**Instructor:** " (instructor m) ++
            spec_lesson_block spec_lesson_line (get_default (lessons m) []))%list
    as [|l ls]; cbn [String.concat].
  - exists EmptyString. now rewrite str_app_nil_r.
  - eexists. reflexivity.
Qed.

(** X14.  [CourseOutlineTool.execute] never changes the tool and never
    raises; it asks the store to resolve the name, once and first, and
    reads the courses metadata, once, only when the resolver answered a
    non-empty title; it never searches and never asks for a lesson link. *)
Theorem outline_execute_store_calls :
  forall (self : CourseOutlineTool.t) (cs : list StoreCall)
         (course_name : string),
    let resolved :=
      _resolve_course_name (CourseOutlineTool.store self) course_name in
    let out :=
      CourseOutlineTool.execute course_name {| obj := self; calls := cs |} in
    obj (snd out) = self /\
    (exists answer, fst out = Return answer) /\
    (truthy_opt_str resolved = false ->
     calls (snd out) = (cs ++ [call_resolve_course_name course_name])%list) /\
    (truthy_opt_str resolved = true ->
     calls (snd out) =
       (cs ++ [call_resolve_course_name course_name;
               call_get_all_courses_metadata])%list).
Proof.
  intros self cs course_name resolved out. unfold out.
  rewrite outline_execute_cases. cbv zeta. fold resolved.
  destruct resolved as [r|]; cbn [truthy_opt_str].
  - destruct (truthy_str r); cbn [fst snd obj calls];
      (split; [reflexivity|]); (split; [eexists; reflexivity|]);
      split; intros H; try discriminate H; try reflexivity.
    now rewrite <- app_assoc.
  - cbn [fst snd obj calls]. split; [reflexivity|].
    split; [eexists; reflexivity|]. split; [reflexivity|discriminate].
Qed.

Lemma outline_execute_store_calls_witness :
  calls (snd (CourseOutlineTool.execute "NonExistent Course"
                (fresh (CourseOutlineTool.__init__
                          (mock_store empty_search_results None
                             sample_courses None))))) =
  [call_resolve_course_name "NonExistent Course"].
Proof.
  refine (proj1 (proj2 (proj2
            (outline_execute_store_calls
               (CourseOutlineTool.__init__
                  (mock_store empty_search_results None sample_courses None))
               [] "NonExistent Course"))) _).
  reflexivity.
Defined.

(** X15.  Every answer of [CourseOutlineTool.execute] is of one of three
    kinds: "No course found matching ..." (the resolver gave no title or
    the empty one); "Course metadata not found for ..." (no entry of the
    catalog carries the resolved title); or the outline of an entry that
    is in the catalog, is the first to carry the resolved title, and whose
    text opens with the line "**Course:** " and that title, never with
    the default title. *)
Theorem outline_execute_classified :
  forall (self : CourseOutlineTool.t) (cs : list StoreCall)
         (course_name : string),
    let st := CourseOutlineTool.store self in
    let answer :=
      fst (CourseOutlineTool.execute course_name
             {| obj := self; calls := cs |}) in
    (truthy_opt_str (_resolve_course_name st course_name) = false /\
     answer = Return (no_course_found course_name)) \/
    (exists resolved,
       _resolve_course_name st course_name = Some resolved /\
       resolved <> EmptyString /\
       no_entry_titled (get_all_courses_metadata st) resolved /\
       answer = Return (metadata_not_found resolved)) \/
    (exists resolved m rest,
       _resolve_course_name st course_name = Some resolved /\
       resolved <> EmptyString /\
       In m (get_all_courses_metadata st) /\
       selected_by (get_all_courses_metadata st) resolved m /\
       answer = Return (spec_outline m) /\
       spec_outline m = "**Course:** " ++ resolved ++ rest).
Proof.
  intros self cs course_name st answer. unfold answer.
  rewrite outline_execute_cases. cbv zeta. fold st.
  destruct (_resolve_course_name st course_name) as [resolved|];
    cbn [truthy_opt_str]; [|left; split; reflexivity].
  destruct (truthy_str resolved) eqn:Ht; [|left; split; reflexivity].
  apply truthy_str_true in Ht. right.
  destruct (CourseOutlineTool.find_matching_course
              (get_all_courses_metadata st) resolved) as [m|] eqn:Hfind.
  - right. pose proof (find_matching_course_selects _ _ _ Hfind) as Hsel.
    destruct (spec_outline_opens m) as [rest Hrest].
    exists resolved, m, rest. split; [reflexivity|]. split; [exact Ht|].
    split; [|split; [exact Hsel|split; [reflexivity|]]].
    + destruct Hsel as (before & after & -> & _). apply in_elt.
    + rewrite Hrest. unfold spec_course_line.
      destruct Hsel as (_ & _ & _ & Htitle & _). rewrite Htitle.
      cbn [get_default]. now rewrite str_app_assoc.
  - left. exists resolved. split; [reflexivity|]. split; [exact Ht|].
    split; [now apply find_matching_course_misses | reflexivity].
Qed.

(** ** Proofs: how the calls of the registry compose *)

Lemma dict_set_after {V : Type} (k k0 : string) (v v0 : V)
    (earlier later : dict V) :
  ~ In k (dict_keys earlier) -> k <> k0 ->
  dict_set k v (earlier ++ (k0, v0) :: later)%list =
  (earlier ++ (k0, v0) :: dict_set k v later)%list.
Proof.
  intros Hnotin Hne. induction earlier as [|[k' v'] rest IH]; cbn.
  - apply String.eqb_neq in Hne. now rewrite Hne.
  - destruct (String.eqb_spec k k') as [->|Hk].
    + exfalso. apply Hnotin. now left.
    + rewrite IH; [reflexivity|]. intros Hin. apply Hnotin. now right.
Qed.

Lemma first_sources_app (earlier : list Tool) (tool : Tool) (later : list Tool)
    (src : Source) (more : list Source) :
  Forall quiet earlier ->
  tool_last_sources tool = Some (src :: more) ->
  ToolManager.first_sources (earlier ++ tool :: later)%list = src :: more.
Proof.
  intros Hq Hs. induction Hq as [|t rest [Ht|Ht] _ IH]; cbn.
  - now rewrite Hs.
  - now rewrite Ht.
  - now rewrite Ht.
Qed.

(** X16.  The first tool with sources shadows the tools registered after
    it: while a tool holds a non-empty [last_sources] and the tools before
    it are quiet, running any tool registered after it (or an unregistered
    name) through [execute_tool] leaves [get_last_sources] returning the
    sources of that first tool, whatever the later tool found. *)
Theorem stale_sources_shadow_later_tools :
  forall (self : ToolManager.t) (cs : list StoreCall)
         (earlier later : dict Tool) (first_name : string) (first : Tool)
         (src : Source) (more : list Source) (tool_name : string)
         (kwargs : Kwargs),
    ToolManager.tools self = (earlier ++ (first_name, first) :: later)%list ->
    Forall quiet (dict_values earlier) ->
    tool_last_sources first = Some (src :: more) ->
    tool_name <> first_name ->
    ~ In tool_name (dict_keys earlier) ->
    fst (ToolManager.get_last_sources
           (snd (ToolManager.execute_tool tool_name kwargs
                   {| obj := self; calls := cs |}))) =
    Return (src :: more).
Proof.
  intros self cs earlier later first_name first src more tool_name kwargs
         Htools Hq Hs Hname Hnotin.
  cbv beta iota zeta delta [ToolManager.get_last_sources bind get_self ret].
  cbn [fst].
  destruct (dict_get tool_name (ToolManager.tools self)) as [tool|] eqn:Hget.
  - rewrite (execute_tool_registered _ _ _ _ _ Hget).
    cbn [snd obj ToolManager.tools]. rewrite Htools.
    rewrite dict_set_after by assumption.
    unfold dict_values. rewrite map_app. cbn [map snd].
    now rewrite (first_sources_app _ _ _ src more).
  - rewrite (execute_tool_unregistered _ _ _ _ Hget).
    cbn [snd obj]. rewrite Htools.
    unfold dict_values. rewrite map_app. cbn [map snd].
    now rewrite (first_sources_app _ _ _ src more).
Qed.

Lemma stale_sources_shadow_later_tools_witness :
  let stale := [ {| text := "Old Course - Lesson 7"; url := None |} ] in
  let registry :=
    {| ToolManager.tools :=
         [ ("custom_tool",
            Other {| OtherTool.definition :=
                       {| name := Some "custom_tool"; description := None;
                          input_schema := None |};
                     OtherTool.run := fun _ attr => (Return "answer", attr);
                     OtherTool.last_sources := Some stale |});
           ("search_course_content",
            SearchTool (CourseSearchTool.__init__ mock_vector_store)) ] |} in
  fst (ToolManager.get_last_sources
         (snd (ToolManager.execute_tool "search_course_content"
                 (query_only "test query") (fresh registry)))) =
  Return stale.
Proof.
  cbv zeta.
  refine (stale_sources_shadow_later_tools _ [] [] _ "custom_tool" _ _ []
            "search_course_content" (query_only "test query") _ _ _ _ _).
  - reflexivity.
  - constructor.
  - reflexivity.
  - discriminate.
  - intros [].
Defined.

(** What a search or an outline tool answers does not depend on the
    [last_sources] it holds. *)
Lemma tool_execute_after_reset (kwargs : Kwargs) (tool : Tool)
    (cs : list StoreCall) :
  (exists t, tool = SearchTool t) \/ (exists t, tool = OutlineTool t) ->
  fst (tool_execute kwargs
         {| obj := ToolManager.reset_tool tool; calls := cs |}) =
  fst (tool_execute kwargs {| obj := tool; calls := cs |}).
Proof.
  intros [[t ->]|[t ->]]; [|reflexivity].
  unfold ToolManager.reset_tool. cbn [tool_last_sources tool_set_last_sources].
  unfold tool_execute, run_on. cbn [obj calls execute CourseSearchTool_Tool].
  unfold CourseSearchTool.call.
  destruct (kw_query kwargs) as [query|]; [|reflexivity].
  pose proof (execute_cases
                {| CourseSearchTool.store := CourseSearchTool.store t;
                   CourseSearchTool.last_sources := [] |}
                cs query (kw_course_name kwargs) (kw_lesson_number kwargs)) as H1.
  pose proof (execute_cases t cs query (kw_course_name kwargs)
                (kw_lesson_number kwargs)) as H2.
  cbv zeta in H1, H2. cbn [CourseSearchTool.store] in H1.
  rewrite H1, H2.
  destruct (truthy_opt_str _); [reflexivity|].
  destruct (is_empty _); reflexivity.
Qed.

(** X17.  Resetting the sources does not change what the tools answer:
    for a name that is unregistered, or registered to a search or an
    outline tool, [execute_tool] returns after [reset_sources] what it
    would have returned without it. *)
Theorem reset_sources_keeps_answers :
  forall (self : ToolManager.t) (cs : list StoreCall) (tool_name : string)
         (kwargs : Kwargs),
    (forall tool,
       dict_get tool_name (ToolManager.tools self) = Some tool ->
       (exists t, tool = SearchTool t) \/ (exists t, tool = OutlineTool t)) ->
    let before := {| obj := self; calls := cs |} in
    fst (ToolManager.execute_tool tool_name kwargs
           (snd (ToolManager.reset_sources before))) =
    fst (ToolManager.execute_tool tool_name kwargs before).
Proof.
  intros self cs tool_name kwargs Hkind before. unfold before.
  cbv beta iota zeta delta
    [ToolManager.reset_sources bind get_self set_self ret obj calls].
  cbn [snd].
  destruct (dict_get tool_name (ToolManager.tools self)) as [tool|] eqn:Hget.
  - rewrite (execute_tool_registered _ _ _ _ (ToolManager.reset_tool tool)).
    + rewrite (execute_tool_registered _ _ _ _ _ Hget). cbn [fst].
      apply tool_execute_after_reset. now apply Hkind.
    + cbn [ToolManager.tools]. rewrite dict_get_map_values, Hget. reflexivity.
  - rewrite !execute_tool_unregistered; [reflexivity | exact Hget |].
    cbn [ToolManager.tools]. rewrite dict_get_map_values, Hget. reflexivity.
Qed.

Lemma reset_sources_keeps_answers_witness :
  fst (ToolManager.execute_tool "search_course_content"
         (query_only "test query")
         (snd (ToolManager.reset_sources (fresh two_tools_registry)))) =
  fst (ToolManager.execute_tool "search_course_content"
         (query_only "test query") (fresh two_tools_registry)).
Proof.
  apply (reset_sources_keeps_answers two_tools_registry []
           "search_course_content" (query_only "test query")).
  intros tool H. left. cbn in H. injection H as <-. eexists. reflexivity.
Defined.

(** ** The properties above at the test doubles *)

Lemma execute_tool_frame_witness :
  dict_get "get_course_outline"
    (ToolManager.tools
       (obj (snd (ToolManager.execute_tool "search_course_content"
                    (query_only "test query") (fresh two_tools_registry))))) =
  Some (OutlineTool (CourseOutlineTool.__init__ mock_vector_store)).
Proof.
  refine (proj2 (execute_tool_frame two_tools_registry []
                   "search_course_content" (query_only "test query"))
            "get_course_outline" _).
  discriminate.
Defined.

Lemma get_last_sources_first_wins_witness :
  exists sources,
    ToolManager.get_last_sources (fresh two_tools_registry) =
      (Return sources, fresh two_tools_registry) /\
    sources = [].
Proof.
  destruct (get_last_sources_first_wins two_tools_registry [])
    as (sources & Hrun & Hquiet & _).
  exists sources. split; [exact Hrun|]. apply Hquiet.
  constructor; [right; reflexivity|]. constructor; [left; reflexivity|].
  constructor.
Defined.

Lemma register_both_tools_witness :
  ToolManager.tools
    (obj (snd (ToolManager.register_tool
                 (OutlineTool (CourseOutlineTool.__init__ mock_vector_store))
                 (snd (ToolManager.register_tool
                         (SearchTool (CourseSearchTool.__init__ mock_vector_store))
                         (fresh ToolManager.__init__)))))) =
  ToolManager.tools two_tools_registry /\
  dict_get "get_course_outline" (ToolManager.tools two_tools_registry) =
  Some (OutlineTool (CourseOutlineTool.__init__ mock_vector_store)).
Proof.
  split; [reflexivity|].
  refine (proj2 (proj2 (proj2 (proj2 (proj2
            (register_both_tools ToolManager.__init__ []
               (CourseSearchTool.__init__ mock_vector_store)
               (CourseOutlineTool.__init__ mock_vector_store)))))
            (ToolManager.tools two_tools_registry) _)).
  left. reflexivity.
Defined.

Lemma search_execute_store_calls_witness :
  exists link_calls,
    calls (snd (CourseSearchTool.execute "test" (Some "NonExistent") (Some 99%Z)
                  (fresh (CourseSearchTool.__init__
                            (mock_store empty_search_results None [] None))))) =
      call_search "test" (Some "NonExistent") (Some 99%Z) :: link_calls /\
    link_calls = [].
Proof.
  destruct (proj2 (search_execute_store_calls
                     (CourseSearchTool.__init__
                        (mock_store empty_search_results None [] None))
                     [] "test" (Some "NonExistent") (Some 99%Z)))
    as (link_calls & Hcalls & _ & _ & Hnone).
  exists link_calls. split; [exact Hcalls|]. apply Hnone. right. reflexivity.
Defined.

Lemma search_execute_classified_witness :
  exists rest,
    fst (CourseSearchTool.execute "test query" None None
           (fresh (CourseSearchTool.__init__ mock_vector_store))) =
    Return ("[" ++ rest).
Proof.
  destruct (search_execute_classified
              (CourseSearchTool.__init__ mock_vector_store) []
              "test query" None None)
    as [(e & He & _) | [(_ & Hd & _) | [(_ & _ & Hrest) | (_ & _ & Hm & _)]]].
  - discriminate He.
  - discriminate Hd.
  - exact Hrest.
  - discriminate Hm.
Defined.

Lemma outline_execute_classified_witness :
  fst (CourseOutlineTool.execute "Advanced Retrieval"
         (fresh (CourseOutlineTool.__init__
                   (mock_store empty_search_results (Some chroma_title) [] None)))) =
  Return (metadata_not_found chroma_title).
Proof.
  destruct (outline_execute_classified
              (CourseOutlineTool.__init__
                 (mock_store empty_search_results (Some chroma_title) [] None))
              [] "Advanced Retrieval")
    as [(Hr & _) | [(resolved & Hr & _ & _ & Ha) | (resolved & m & rest & _ & _ & Hin & _)]].
  - discriminate Hr.
  - injection Hr as <-. exact Ha.
  - destruct Hin.
Defined.
